(** * Azure DevOps MCP server: tool enablement gate, result projections and
    pagination

    A shallow embedding of [src/tools.ts] and [src/tools/repos.ts] (with the
    tool table of [src/tools/search.ts]), and the properties of the tool
    registry, of the projections and of the paging code that are checked
    against them.

    Conventions of the embedding.
    - A JavaScript string is a [string]: a sequence of code units below 256.
      Every string primitive below is the restriction of the ECMAScript one to
      that range.
    - A JavaScript number that the code uses as an index, an identifier or an
      enumeration code is a [Z].
    - [undefined] is [None]; an optional property is an [option].
    - A [Set<string>] is a [gset string]; a [Map] built from a literal list of
      entries with distinct keys is that list of entries.
    - An [async] function that may reject is a function into [Completion]:
      [Throw e] is a rejected promise (or a throw), [Return v] a fulfilled one. *)

From Stdlib Require Import ZArith Ascii String List.
From stdpp Require Import base decidable option list sets gmap strings sorting.

Local Open Scope string_scope.
Local Open Scope list_scope.

(** ** ECMAScript string primitives *)

Module Js.

(** [WhiteSpace] and [LineTerminator] code points below 256: TAB, LF, VT, FF,
    CR, SP and NBSP. These are the code units [String.prototype.trim]
    removes. *)
Definition isWhiteSpace (c : ascii) : bool :=
  let n := nat_of_ascii c in
  (Nat.eqb n 9 || Nat.eqb n 10 || Nat.eqb n 11 || Nat.eqb n 12
   || Nat.eqb n 13 || Nat.eqb n 32 || Nat.eqb n 160)%bool.

Fixpoint trimStart (s : string) : string :=
  match s with
  | String c s' => if isWhiteSpace c then trimStart s' else s
  | EmptyString => EmptyString
  end.

(** [trimEnd s]: the result keeps a code unit when it is not white space or
    when something is kept after it. *)
Fixpoint trimEnd (s : string) : string :=
  match s with
  | String c s' =>
      match trimEnd s' with
      | EmptyString => if isWhiteSpace c then EmptyString else String c EmptyString
      | r => String c r
      end
  | EmptyString => EmptyString
  end.

(** [s.trim()] *)
Definition trim (s : string) : string := trimEnd (trimStart s).

(** [s.split(sep)] for a separator of one code unit: the pieces between the
    occurrences of [sep], empty pieces included; never the empty list. *)
Fixpoint split (sep : ascii) (s : string) : list string :=
  match s with
  | EmptyString => [EmptyString]
  | String c s' =>
      if Ascii.eqb c sep then EmptyString :: split sep s'
      else match split sep s' with
           | w :: ws => String c w :: ws
           | [] => [String c EmptyString]
           end
  end.

(** [s.startsWith(p)] *)
Fixpoint startsWith (s p : string) : bool :=
  match p, s with
  | EmptyString, _ => true
  | String a p', String b s' => Ascii.eqb a b && startsWith s' p'
  | String _ _, EmptyString => false
  end.

(** [s.includes(p)] *)
Fixpoint includes (s p : string) : bool :=
  startsWith s p ||
  match s with
  | EmptyString => false
  | String _ s' => includes s' p
  end.

(** [drop n s]: [s] without its first [n] code units. *)
Fixpoint drop (n : nat) (s : string) : string :=
  match n, s with
  | O, _ => s
  | S n', String _ s' => drop n' s'
  | S _, EmptyString => EmptyString
  end.

(** [s.replace(p, r)] for a string pattern [p] and a replacement [r] without
    [$] patterns: the first occurrence of [p] is replaced, if there is one. *)
Fixpoint replace (s p r : string) : string :=
  if startsWith s p then r ++ drop (String.length p) s
  else match s with
       | EmptyString => EmptyString
       | String c s' => String c (replace s' p r)
       end.

(** [c.toLowerCase()] on one code unit below 256: A-Z, and the capital
    letters of Latin-1 (192-222 but the multiplication sign 215). *)
Definition lowerCodeUnit (c : ascii) : ascii :=
  let n := nat_of_ascii c in
  if ((Nat.leb 65 n && Nat.leb n 90)
      || (Nat.leb 192 n && Nat.leb n 222 && negb (Nat.eqb n 215)))%bool
  then ascii_of_nat (n + 32) else c.

(** [s.toLowerCase()] *)
Fixpoint toLowerCase (s : string) : string :=
  match s with
  | EmptyString => EmptyString
  | String c s' => String (lowerCodeUnit c) (toLowerCase s')
  end.

(** Truthiness of a string: every string but the empty one. *)
Definition truthy (s : string) : bool :=
  match s with EmptyString => false | _ => true end.

(** Truthiness of an optional string ([undefined] and [""] are falsy). *)
Definition truthy_opt (s : option string) : bool :=
  match s with Some s => truthy s | None => false end.

(** [a || b] on strings, where [a] may be [undefined]. *)
Definition or_else (a : option string) (b : string) : string :=
  match a with
  | Some s => if truthy s then s else b
  | None => b
  end.

(** [arr.slice(start, end)] for integral arguments: a negative index counts
    from the end, and both bounds are clamped to the array. *)
Definition slice {A} (l : list A) (start end_ : Z) : list A :=
  let len := Z.of_nat (List.length l) in
  let k := if (start <? 0)%Z then Z.max (len + start) 0 else Z.min start len in
  let final := if (end_ <? 0)%Z then Z.max (len + end_) 0 else Z.min end_ len in
  let count := Z.max (final - k) 0 in
  take (Z.to_nat count) (List.skipn (Z.to_nat k) l).

(** [arr.sort(cmp)]: the sort is stable, and for a comparator that is a
    consistent ordering its result is the one of any stable sort; here a
    stable insertion sort. [cmp a b > 0] asks for [a] after [b]. *)
Section Sort.
Context {A : Type} (cmp : A -> A -> Z).

Fixpoint insert_sorted (x : A) (l : list A) : list A :=
  match l with
  | [] => [x]
  | y :: l' => if (0 <? cmp y x)%Z then x :: y :: l' else y :: insert_sorted x l'
  end.

Definition sort (l : list A) : list A := foldl (fun acc x => insert_sorted x acc) [] l.
End Sort.

End Js.

(** ** Tool tables ([src/tools/repos.ts], [src/tools/search.ts]) *)

(** [REPO_TOOLS]: one definition per property, and [values] for
    [Object.values(REPO_TOOLS)], in the order of the declaration. *)
Module REPO_TOOLS.
Definition get_azure_devops_repositories := "get_azure_devops_repositories".
Definition get_azure_devops_pull_request_by_id := "get_azure_devops_pull_request_by_id".
Definition get_azure_devops_changes_by_commit := "get_azure_devops_changes_by_commit".
Definition get_azure_devops_item_content_by_commit := "get_azure_devops_item_content_by_commit".
Definition get_azure_devops_content_by_objectid := "get_azure_devops_content_by_objectid".
Definition list_azure_devops_pull_request_threads := "list_azure_devops_pull_request_threads".
Definition list_azure_devops_pull_request_comments_by_thread :=
  "list_azure_devops_pull_request_comments_by_thread".
Definition list_pull_requests_by_repo := "repo_list_pull_requests_by_repo".
Definition list_pull_requests_by_project := "repo_list_pull_requests_by_project".
Definition list_branches_by_repo := "repo_list_branches_by_repo".
Definition list_my_branches_by_repo := "repo_list_my_branches_by_repo".
Definition get_branch_by_name := "repo_get_branch_by_name".
Definition create_pull_request := "repo_create_pull_request".
Definition update_pull_request_status := "repo_update_pull_request_status".
Definition update_pull_request_reviewers := "repo_update_pull_request_reviewers".
Definition reply_to_comment := "repo_reply_to_comment".
Definition resolve_comment := "repo_resolve_comment".
Definition search_commits := "repo_search_commits".
Definition list_pull_requests_by_commits := "repo_list_pull_requests_by_commits".

Definition values : list string :=
  [ get_azure_devops_repositories; get_azure_devops_pull_request_by_id;
    get_azure_devops_changes_by_commit; get_azure_devops_item_content_by_commit;
    get_azure_devops_content_by_objectid; list_azure_devops_pull_request_threads;
    list_azure_devops_pull_request_comments_by_thread; list_pull_requests_by_repo;
    list_pull_requests_by_project; list_branches_by_repo; list_my_branches_by_repo;
    get_branch_by_name; create_pull_request; update_pull_request_status;
    update_pull_request_reviewers; reply_to_comment; resolve_comment; search_commits;
    list_pull_requests_by_commits ].
End REPO_TOOLS.

Module SEARCH_TOOLS.
Definition search_azure_devops_code := "search_azure_devops_code".
Definition search_azure_devops_wiki := "search_azure_devops_wiki".
Definition search_azure_devops_workitem := "search_azure_devops_workitem".

Definition values : list string :=
  [ search_azure_devops_code; search_azure_devops_wiki; search_azure_devops_workitem ].
End SEARCH_TOOLS.

(** The tables of the other families ([./tools/core.js], [work.js],
    [builds.js], [workitems.js], [releases.js], [wiki.js], [testplans.js]) are
    imported by [src/tools.ts] and are parameters here: for each table the list
    of its values, and for [CORE_TOOLS] also the two properties that
    [DEFAULT_ENABLED_TOOLS] reads. *)
Record FamilyTables := {
  CORE_list_azure_devops_projects : string;
  CORE_get_azure_devops_identity_ids : string;
  CORE_TOOLS_others : list string;
  WORK_TOOLS : list string;
  BUILD_TOOLS : list string;
  WORKITEM_TOOLS : list string;
  RELEASE_TOOLS : list string;
  WIKI_TOOLS : list string;
  Test_Plan_Tools : list string;
}.

(** [Object.values(CORE_TOOLS)] *)
Definition CORE_TOOLS (T : FamilyTables) : list string :=
  CORE_list_azure_devops_projects T :: CORE_get_azure_devops_identity_ids T
  :: CORE_TOOLS_others T.

(** ** The enablement gate ([src/tools.ts]) *)

(** [m.get(k)] on a [Map] given by its entries. *)
Fixpoint Map_get {V} (m : list (string * V)) (k : string) : option V :=
  match m with
  | [] => None
  | (k', v) :: m' => if String.eqb k' k then Some v else Map_get m' k
  end.

(** [Array.from(m.values())] *)
Definition Map_values {V} (m : list (string * V)) : list V := map snd m.

Section Gate.
Variable T : FamilyTables.

(** Each entry holds the values of the category's table, which is all the
    code reads of it. *)
Definition TOOLS_CATEGORY_MAP : list (string * list string) :=
  [ ("category_core", CORE_TOOLS T);
    ("category_work", WORK_TOOLS T);
    ("category_build", BUILD_TOOLS T);
    ("category_repo", REPO_TOOLS.values);
    ("category_workitem", WORKITEM_TOOLS T);
    ("category_release", RELEASE_TOOLS T);
    ("category_wiki", WIKI_TOOLS T);
    ("category_testplan", Test_Plan_Tools T);
    ("category_search", SEARCH_TOOLS.values) ].

Definition DEFAULT_ENABLED_TOOLS : list string :=
  [ CORE_list_azure_devops_projects T;
    CORE_get_azure_devops_identity_ids T;
    SEARCH_TOOLS.search_azure_devops_code;
    REPO_TOOLS.get_azure_devops_repositories;
    REPO_TOOLS.get_azure_devops_pull_request_by_id;
    REPO_TOOLS.get_azure_devops_changes_by_commit;
    REPO_TOOLS.get_azure_devops_content_by_objectid;
    REPO_TOOLS.get_azure_devops_item_content_by_commit;
    REPO_TOOLS.list_azure_devops_pull_request_threads;
    REPO_TOOLS.list_azure_devops_pull_request_comments_by_thread ].

(** The names of every tool of every category: the initial content of
    [disabledTools]. *)
Definition all_tool_names : list string :=
  flat_map (fun toolName => toolName) (Map_values TOOLS_CATEGORY_MAP).

(** The callback of [.map] over the tokens of the override: a category name
    stands for the tools of the category, any other token for itself. *)
Definition resolve_token (tool : string) : list string :=
  let tool := Js.trim tool in
  match Map_get TOOLS_CATEGORY_MAP tool with
  | Some category => category
  | None => [tool]
  end.

(** [(process.env.ADO_MCP_ENABLED_TOOLS || "").split(",")] *)
Definition override_tokens (env : option string) : list string :=
  Js.split "," (Js.or_else env "").

(** The array on which [.forEach((tool) => disabledTools.delete(tool))] runs. *)
Definition enabled_names (env : option string) : list string :=
  DEFAULT_ENABLED_TOOLS ++ flat_map resolve_token (override_tokens env).

(** The set [disabledTools] that [configureAllTools] passes to every family. *)
Definition disabledTools (env : option string) : gset string :=
  foldl (fun disabled tool => disabled ∖ {[tool]})
        (list_to_set all_tool_names) (enabled_names env).

End Gate.

(** ** Registration ([configureRepoTools], [configureSearchTools]) *)

(** The server is the list of the names registered so far. [server.tool] is
    reached for a name only when [disabledTools.has] answers no. *)
Definition register_unless_disabled (disabled : gset string) (name : string)
    (server : list string) : list string :=
  if bool_decide (name ∈ disabled) then server else server ++ [name].

(** The names in the order of the [if] statements of [configureRepoTools]. *)
Definition configureRepoTools (server : list string) (disabled : gset string) : list string :=
  foldl (fun server name => register_unless_disabled disabled name server) server
    [ REPO_TOOLS.get_azure_devops_repositories;
      REPO_TOOLS.get_azure_devops_pull_request_by_id;
      REPO_TOOLS.get_azure_devops_changes_by_commit;
      REPO_TOOLS.get_azure_devops_item_content_by_commit;
      REPO_TOOLS.get_azure_devops_content_by_objectid;
      REPO_TOOLS.list_azure_devops_pull_request_threads;
      REPO_TOOLS.list_azure_devops_pull_request_comments_by_thread;
      REPO_TOOLS.create_pull_request;
      REPO_TOOLS.update_pull_request_status;
      REPO_TOOLS.update_pull_request_reviewers;
      REPO_TOOLS.list_pull_requests_by_repo;
      REPO_TOOLS.list_pull_requests_by_project;
      REPO_TOOLS.list_branches_by_repo;
      REPO_TOOLS.list_my_branches_by_repo;
      REPO_TOOLS.get_branch_by_name;
      REPO_TOOLS.reply_to_comment;
      REPO_TOOLS.resolve_comment;
      REPO_TOOLS.search_commits;
      REPO_TOOLS.list_pull_requests_by_commits ].

Definition configureSearchTools (server : list string) (disabled : gset string) : list string :=
  foldl (fun server name => register_unless_disabled disabled name server) server
    [ SEARCH_TOOLS.search_azure_devops_code;
      SEARCH_TOOLS.search_azure_devops_wiki;
      SEARCH_TOOLS.search_azure_devops_workitem ].

(** A set of tables on which the gate is run in the examples: names in the
    style of the repository's tables. *)
Definition sample_tables : FamilyTables := {|
  CORE_list_azure_devops_projects := "list_azure_devops_projects";
  CORE_get_azure_devops_identity_ids := "get_azure_devops_identity_ids";
  CORE_TOOLS_others := ["core_list_project_teams"];
  WORK_TOOLS := ["work_list_team_iterations"; "work_create_iterations"];
  BUILD_TOOLS := ["build_get_definitions"; "build_run_build"];
  WORKITEM_TOOLS := ["wit_get_work_item"; "wit_my_work_items"];
  RELEASE_TOOLS := ["release_get_definitions"];
  WIKI_TOOLS := ["wiki_list_wikis"; "wiki_get_page_content"];
  Test_Plan_Tools := ["testplan_list_test_plans"];
|}.


(** ** Completions: values, throws and rejected promises *)

(** What a [catch] clause receives. The handlers read only its [message],
    which is absent when the thrown value is not an [Error]. *)
Record Thrown := { message : option string }.

(** [new Error(msg)] *)
Definition Error (msg : string) : Thrown := {| message := Some msg |}.

Inductive Completion (A : Type) : Type :=
| Return (a : A)
| Throw (e : Thrown).
Arguments Return {A} a.
Arguments Throw {A} e.

#[global] Instance Completion_ret : MRet Completion := fun A a => Return a.
#[global] Instance Completion_bind : MBind Completion := fun A B k c =>
  match c with
  | Return a => k a
  | Throw e => Throw e
  end.

(** [try { body } catch (error) { handler }] *)
Definition try_catch {A} (body : Completion A) (handler : Thrown -> Completion A) : Completion A :=
  match body with
  | Return a => Return a
  | Throw e => handler e
  end.

(** ** Enumerations of [azure-devops-node-api/interfaces/GitInterfaces]

    The declarations of the client library that [repos.ts] imports, with the
    numeric codes of the library. *)

Module PullRequestStatus.
Definition NotSet : Z := 0.
Definition Active : Z := 1.
Definition Abandoned : Z := 2.
Definition Completed : Z := 3.
Definition All : Z := 4.
End PullRequestStatus.

Module GitVersionType.
Definition Branch : Z := 0.
Definition Tag : Z := 1.
Definition Commit : Z := 2.
End GitVersionType.

Module VersionControlChangeType.
(** The members in the order of the declaration. *)
Definition members : list (string * Z) :=
  [ ("None", 0); ("Add", 1); ("Edit", 2); ("Encoding", 4); ("Rename", 8);
    ("Delete", 16); ("Undelete", 32); ("Branch", 64); ("Merge", 128);
    ("Lock", 256); ("Rollback", 512); ("SourceRename", 1024);
    ("TargetRename", 2048); ("Property", 4096); ("All", 8191) ]%Z.

Definition None_ : Z := 0.
Definition Add : Z := 1.
Definition Edit : Z := 2.
Definition Rename : Z := 8.
Definition Delete : Z := 16.

(** [VersionControlChangeType[code]]: the reverse mapping of a numeric
    enumeration, [undefined] for a number that is no member. The codes of
    the members are distinct, so the first match is the only one. *)
Fixpoint name_in (ms : list (string * Z)) (code : Z) : option string :=
  match ms with
  | [] => None
  | (name, v) :: ms' => if (v =? code)%Z then Some name else name_in ms' code
  end.

Definition name_of (code : Z) : option string := name_in members code.
End VersionControlChangeType.

(** ** Upstream entities (the properties the code reads, and some it drops) *)

Record IdentityRef := {
  idr_id : option string;
  idr_displayName : option string;
  idr_uniqueName : option string;
  idr_url : option string;
  idr_imageUrl : option string;
}.

Record IdentityRefWithVote := {
  irv_id : option string;
  irv_displayName : option string;
  irv_uniqueName : option string;
  irv_vote : option Z;
  irv_hasDeclined : option bool;
  irv_isRequired : option bool;
  irv_url : option string;
}.

Record TeamProjectReference := {
  tpr_id : option string;
  tpr_description : option string;
  tpr_name : option string;
  tpr_url : option string;
}.

Record GitRepository := {
  repo_id : option string;
  repo_defaultBranch : option string;
  repo_name : option string;
  repo_isFork : option bool;
  repo_project : option TeamProjectReference;
  repo_url : option string;
  repo_size : option Z;
}.

Record GitUserDate := {
  gud_name : option string;
  gud_email : option string;
  gud_date : option string;
}.

Record GitCommitRef := {
  gcr_commitId : option string;
  gcr_comment : option string;
  gcr_commentTruncated : option bool;
  gcr_author : option GitUserDate;
  gcr_committer : option GitUserDate;
  gcr_url : option string;
}.

Record ResourceRef := { rr_id : option string; rr_url : option string }.

Record GitPullRequest := {
  pr_creationDate : option string;
  pr_closedDate : option string;
  pr_description : option string;
  pr_pullRequestId : option Z;
  pr_sourceRefName : option string;
  pr_targetRefName : option string;
  pr_status : option Z;
  pr_title : option string;
  pr_workItemRefs : option (list ResourceRef);
  pr_isDraft : option bool;
  pr_closedBy : option IdentityRef;
  pr_createdBy : option IdentityRef;
  pr_reviewers : option (list IdentityRefWithVote);
  pr_commits : option (list GitCommitRef);
  pr_url : option string;
  pr_mergeStatus : option Z;
}.

Record GitItem := {
  gi_gitObjectType : option Z;
  gi_objectId : option string;
  gi_originalObjectId : option string;
  gi_isFolder : option bool;
  gi_isSymLink : option bool;
  gi_path : option string;
  gi_commitId : option string;
  gi_url : option string;
}.

Record GitChange := {
  gc_changeId : option Z;
  gc_originalPath : option string;
  gc_changeType : option Z;
  gc_item : option GitItem;
  gc_url : option string;
}.

Record GitCommitChanges := { gcc_changes : option (list GitChange) }.

Record GitCommitDiffs := {
  gcd_changes : option (list GitChange);
  gcd_baseCommit : option string;
  gcd_commonCommit : option string;
  gcd_targetCommit : option string;
  gcd_allChangesIncluded : option bool;
  gcd_aheadCount : option Z;
  gcd_behindCount : option Z;
}.

Record GitRef := {
  ref_name : option string;
  ref_objectId : option string;
}.

Record GitPullRequestCommentThread := {
  thread_id : option Z;
  thread_status : option Z;
}.

(** ** Result projections *)

Record IdentityResult := {
  ir_id : option string;
  ir_displayName : option string;
  ir_uniqueName : option string;
}.

Record IdentityWithVoteResult := {
  ivr_id : option string;
  ivr_displayName : option string;
  ivr_uniqueName : option string;
  ivr_vote : option Z;
  ivr_hasDeclined : option bool;
  ivr_isRequired : option bool;
}.

Record ProjectResult := {
  prj_id : option string;
  prj_description : option string;
  prj_name : option string;
}.

Record RepositoryResult := {
  rres_id : option string;
  rres_defaultBranch : option string;
  rres_name : option string;
  rres_isFork : option bool;
  rres_project : option ProjectResult;
}.

Record GitUserDateResult := { gudr_email : option string; gudr_date : option string }.

Record GitCommitResult := {
  gcres_commitId : option string;
  gcres_comment : option string;
  gcres_commentTruncated : option bool;
  gcres_author : option GitUserDateResult;
  gcres_committer : option GitUserDateResult;
}.

Record GitItemResult := {
  gires_gitObjectType : option Z;
  gires_objectId : option string;
  gires_originalObjectId : option string;
  gires_isFolder : option bool;
  gires_isSymLink : option bool;
  gires_path : option string;
}.

(** [changeType] is a [ProperChangeType]: the name of a member of
    [VersionControlChangeType]. *)
Record GitChangeResult := {
  changeId : option Z;
  originalPath : option string;
  changeType : option string;
  item : option GitItemResult;
}.

Record GitCommitChangesResult := { gccr_changes : option (list GitChangeResult) }.

Record GitCommitDiffsResult := {
  gcdr_changes : option (list GitChangeResult);
  gcdr_baseCommit : option string;
  gcdr_commonCommit : option string;
  gcdr_targetCommit : option string;
  gcdr_allChangesIncluded : option bool;
}.

Record PullRequestResult := {
  creationDate : option string;
  closedDate : option string;
  description : option string;
  pullRequestId : option Z;
  sourceRefName : option string;
  targetRefName : option string;
  status : option Z;
  title : option string;
  workItemRefs : option (list ResourceRef);
  closedBy : option IdentityResult;
  createdBy : option IdentityResult;
  reviewers : option (list IdentityWithVoteResult);
  commits : option (list GitCommitResult);
  pullRequestChanges : option GitCommitDiffsResult;
}.

Definition toIdentityResult (identityRef : IdentityRef) : IdentityResult :=
  {| ir_id := idr_id identityRef;
     ir_displayName := idr_displayName identityRef;
     ir_uniqueName := idr_uniqueName identityRef |}.

Definition toIdentityWithVoteResult (identityRef : IdentityRefWithVote) : IdentityWithVoteResult :=
  {| ivr_id := irv_id identityRef;
     ivr_displayName := irv_displayName identityRef;
     ivr_uniqueName := irv_uniqueName identityRef;
     ivr_vote := irv_vote identityRef;
     ivr_hasDeclined := irv_hasDeclined identityRef;
     ivr_isRequired := irv_isRequired identityRef |}.

Definition toProjectResult (projectRef : TeamProjectReference) : ProjectResult :=
  {| prj_id := tpr_id projectRef;
     prj_description := tpr_description projectRef;
     prj_name := tpr_name projectRef |}.

(** [repo.project && toProjectResult(repo.project)]: an object is truthy, so
    the projection applies whenever the property is there. *)
Definition toRepositoryResult (repo : GitRepository) : RepositoryResult :=
  {| rres_id := repo_id repo;
     rres_defaultBranch := repo_defaultBranch repo;
     rres_name := repo_name repo;
     rres_isFork := repo_isFork repo;
     rres_project := option_map toProjectResult (repo_project repo) |}.

Definition toGitUserDateResult (user : GitUserDate) : GitUserDateResult :=
  {| gudr_email := gud_email user; gudr_date := gud_date user |}.

Definition toGitCommitResult (commit : GitCommitRef) : GitCommitResult :=
  {| gcres_commitId := gcr_commitId commit;
     gcres_comment := gcr_comment commit;
     gcres_commentTruncated := gcr_commentTruncated commit;
     gcres_author := option_map toGitUserDateResult (gcr_author commit);
     gcres_committer := option_map toGitUserDateResult (gcr_committer commit) |}.

Definition toPullRequestResult (pr : GitPullRequest) : PullRequestResult :=
  {| creationDate := pr_creationDate pr;
     closedDate := pr_closedDate pr;
     description := pr_description pr;
     pullRequestId := pr_pullRequestId pr;
     sourceRefName := pr_sourceRefName pr;
     targetRefName := pr_targetRefName pr;
     status := pr_status pr;
     title := pr_title pr;
     workItemRefs := pr_workItemRefs pr;
     closedBy := option_map toIdentityResult (pr_closedBy pr);
     createdBy := option_map toIdentityResult (pr_createdBy pr);
     reviewers := option_map (map toIdentityWithVoteResult) (pr_reviewers pr);
     commits := option_map (map toGitCommitResult) (pr_commits pr);
     pullRequestChanges := None |}.

Definition toGitItemResult (item : GitItem) : GitItemResult :=
  {| gires_gitObjectType := gi_gitObjectType item;
     gires_objectId := gi_objectId item;
     gires_originalObjectId := gi_originalObjectId item;
     gires_isFolder := gi_isFolder item;
     gires_isSymLink := gi_isSymLink item;
     gires_path := gi_path item |}.

(** Truthiness of an integral number: every one but [0]. *)
Definition truthy_number (n : Z) : bool := negb (n =? 0)%Z.

(** [change.changeType ? VersionControlChangeType[change.changeType] : undefined] *)
Definition toGitChangeResult (change : GitChange) : GitChangeResult :=
  {| changeId := gc_changeId change;
     originalPath := gc_originalPath change;
     changeType :=
       match gc_changeType change with
       | Some code =>
           if truthy_number code then VersionControlChangeType.name_of code else None
       | None => None
       end;
     item := option_map toGitItemResult (gc_item change) |}.

Definition toGitCommitChangesResult (changes : GitCommitChanges) : GitCommitChangesResult :=
  {| gccr_changes := option_map (map toGitChangeResult) (gcc_changes changes) |}.

Definition toGitCommitDiffsResult (commitDiffs : GitCommitDiffs) : GitCommitDiffsResult :=
  {| gcdr_changes := option_map (map toGitChangeResult) (gcd_changes commitDiffs);
     gcdr_baseCommit := gcd_baseCommit commitDiffs;
     gcdr_commonCommit := gcd_commonCommit commitDiffs;
     gcdr_targetCommit := gcd_targetCommit commitDiffs;
     gcdr_allChangesIncluded := gcd_allChangesIncluded commitDiffs |}.

(** ** Pull-request status translation *)

Definition pullRequestStatusStringToInt (status : string) : Completion Z :=
  if String.eqb status "abandoned" then Return PullRequestStatus.Abandoned
  else if String.eqb status "active" then Return PullRequestStatus.Active
  else if String.eqb status "all" then Return PullRequestStatus.All
  else if String.eqb status "completed" then Return PullRequestStatus.Completed
  else if String.eqb status "notSet" then Return PullRequestStatus.NotSet
  else Throw (Error ("Unknown pull request status: " ++ status)).

(** ** The upstream client

    The calls of the Git client that the handlers make. Each is made at most
    once in an invocation, so a call is a function from its arguments to its
    completion. *)

Record GitVersionDescriptor := {
  version : option string;
  versionType : Z;
}.

Record GitApi := {
  getRepositories : string -> Completion (option (list GitRepository));
  getPullRequest : string -> Z -> Completion (option GitPullRequest);
  getPullRequestCommits : string -> Z -> Completion (option (list GitCommitRef));
  (** [getCommitDiffs(repositoryId, undefined, false, 100, undefined, base, target)] *)
  getCommitDiffs :
    string -> GitVersionDescriptor -> GitVersionDescriptor -> Completion (option GitCommitDiffs);
  (** [getRefs(repositoryId, ..., includeMyBranches)] *)
  getRefs : string -> option bool -> Completion (option (list GitRef));
  (** [getThreads(repositoryId, pullRequestId, project, iteration, baseIteration)] *)
  getThreads :
    string -> Z -> option string -> option Z -> option Z ->
    Completion (option (list GitPullRequestCommentThread));
}.

Record WebApi := { getGitApi : Completion GitApi }.

(** ** The envelope a tool returns *)

(** [content] holds the [text] of each block (every block has type ["text"]);
    [isError] is absent from a successful result. *)
Record ToolResult := {
  content : list string;
  isError : option bool;
}.

(** [JSON.stringify] at the type of each payload. The serialisation itself is
    not part of the model. *)
Class Stringify (A : Type) := JSON_stringify : A -> string.

(** The text a template literal gives for an optional string. *)
Definition template_opt (s : option string) : string :=
  match s with Some s => s | None => "undefined" end.

(** ** Branch listing, paging and the handlers of [configureRepoTools] *)

Section Handlers.
(** [a.localeCompare(b)]: the collation of the host's locale. *)
Variable localeCompare : string -> string -> Z.
Context {stringify_repositories : Stringify (list RepositoryResult)}
        {stringify_pull_request : Stringify PullRequestResult}
        {stringify_ref : Stringify GitRef}
        {stringify_names : Stringify (option (list string))}
        {stringify_threads : Stringify (option (list GitPullRequestCommentThread))}.
Variable connectionProvider : Completion WebApi.

Definition branchesFilterOutIrrelevantProperties
    (branches : option (list GitRef)) (top : Z) : option (list string) :=
  option_map
    (fun branches =>
       Js.slice
         (Js.sort (fun a b => localeCompare b a)
            (map (fun branch => Js.replace branch "refs/heads/" "")
               (List.filter (fun branch => Js.startsWith branch "refs/heads/")
                  (flat_map
                     (fun branch =>
                        match ref_name branch with
                        | Some name => if Js.truthy name then [name] else []
                        | None => []
                        end)
                     branches))))
         0 top)
    branches.

(** The comparator of the repository listing:
    [a.name?.localeCompare(b.name ?? "") ?? 0]. *)
Definition compareRepositoryNames (a b : RepositoryResult) : Z :=
  match rres_name a with
  | Some name => localeCompare name (default "" (rres_name b))
  | None => 0%Z
  end.

(** The comparator of the thread listing: [(a.id ?? 0) - (b.id ?? 0)]. *)
Definition compareThreadIds (a b : GitPullRequestCommentThread) : Z :=
  (default 0 (thread_id a) - default 0 (thread_id b))%Z.

(** The value of [repos] in [getRepositoriesResult]: with a truthy filter
    (the lower-cased [repositoryNameOrId]) the repositories whose lower-cased
    name includes it or whose id is it; all repositories otherwise. *)
Definition filterRepositories (repositoryNameOrId : option string)
    (repositories : option (list GitRepository)) : option (list GitRepository) :=
  let filter := option_map Js.toLowerCase repositoryNameOrId in
  match filter with
  | Some filter =>
      if Js.truthy filter then
        option_map
          (List.filter
             (fun repo =>
                match repo_name repo with
                | Some name => Js.includes (Js.toLowerCase name) filter
                | None => false
                end
                || bool_decide (repo_id repo = Some filter)))
          repositories
      else repositories
  | None => repositories
  end.

Definition getRepositoriesResult (project : string) (repositoryNameOrId : option string)
    : Completion (list RepositoryResult) :=
  connection ← connectionProvider;
  gitApi ← getGitApi connection;
  repositories ← getRepositories gitApi project;
  let repos := filterRepositories repositoryNameOrId repositories in
  match repos with
  | Some (r :: rs) => mret (map toRepositoryResult (r :: rs))
  | Some [] | None =>
      Throw (Error ("Repository " ++ template_opt repositoryNameOrId
                    ++ " not found in project " ++ project))
  end.

Definition get_azure_devops_repositories
    (project : string) (top skip : Z) (repositoryNameOrId : option string)
    : Completion ToolResult :=
  try_catch
    (reposResult ← getRepositoriesResult project repositoryNameOrId;
     let paginatedRepositories :=
       Js.slice (Js.sort compareRepositoryNames reposResult) skip (skip + top) in
     mret {| content := [JSON_stringify paginatedRepositories]; isError := None |})
    (fun error =>
       let message := Js.or_else (message error) "Failed to get repositories." in
       mret {| content := [message]; isError := Some true |}).

Definition set_commits (r : PullRequestResult) (cs : list GitCommitResult) : PullRequestResult :=
  {| creationDate := creationDate r; closedDate := closedDate r;
     description := description r; pullRequestId := pullRequestId r;
     sourceRefName := sourceRefName r; targetRefName := targetRefName r;
     status := status r; title := title r; workItemRefs := workItemRefs r;
     closedBy := closedBy r; createdBy := createdBy r; reviewers := reviewers r;
     commits := Some cs; pullRequestChanges := pullRequestChanges r |}.

Definition set_pullRequestChanges (r : PullRequestResult) (d : option GitCommitDiffsResult)
    : PullRequestResult :=
  {| creationDate := creationDate r; closedDate := closedDate r;
     description := description r; pullRequestId := pullRequestId r;
     sourceRefName := sourceRefName r; targetRefName := targetRefName r;
     status := status r; title := title r; workItemRefs := workItemRefs r;
     closedBy := closedBy r; createdBy := createdBy r; reviewers := reviewers r;
     commits := commits r; pullRequestChanges := d |}.

(** The descriptor of the target branch:
    [pullRequest.targetRefName?.replace("refs/heads/", "") || "main"]. *)
Definition baseVersionDescriptorOf (pullRequest : GitPullRequest) : GitVersionDescriptor :=
  let targetBranch :=
    Js.or_else
      (option_map (fun r => Js.replace r "refs/heads/" "") (pr_targetRefName pullRequest))
      "main" in
  {| version := Some targetBranch; versionType := GitVersionType.Branch |}.

(** The descriptor of [commits[0]], taken for the latest commit. *)
Definition targetVersionDescriptorOf (first : GitCommitRef) : GitVersionDescriptor :=
  let latestCommitId := gcr_commitId first in
  {| version := latestCommitId; versionType := GitVersionType.Commit |}.

Definition getPullRequestResult (repositoryId : string) (pullRequestId : Z)
    : Completion PullRequestResult :=
  connection ← connectionProvider;
  gitApi ← getGitApi connection;
  pullRequest ← getPullRequest gitApi repositoryId pullRequestId;
  match pullRequest with
  | None => Throw (Error "Pull request not found.")
  | Some pullRequest =>
      let prResult := toPullRequestResult pullRequest in
      commits ← getPullRequestCommits gitApi repositoryId pullRequestId;
      let prResult :=
        set_commits prResult
          (match commits with Some cs => map toGitCommitResult cs | None => [] end) in
      match commits with
      | Some (first :: _) =>
          let baseVersionDescriptor := baseVersionDescriptorOf pullRequest in
          let targetVersionDescriptor := targetVersionDescriptorOf first in
          diffs ← getCommitDiffs gitApi repositoryId baseVersionDescriptor
                    targetVersionDescriptor;
          mret (set_pullRequestChanges prResult (option_map toGitCommitDiffsResult diffs))
      | Some [] | None => mret prResult
      end
  end.

Definition get_azure_devops_pull_request_by_id (repositoryId : string) (pullRequestId : Z)
    : Completion ToolResult :=
  try_catch
    (prRes ← getPullRequestResult repositoryId pullRequestId;
     let text := JSON_stringify prRes in
     mret {| content := [text]; isError := None |})
    (fun error =>
       let message := Js.or_else (message error) "Failed to get pull request." in
       mret {| content := [message]; isError := Some true |}).

(** No [try] in this handler and the next ones: a failed call rejects the
    promise of the handler. *)
Definition list_azure_devops_pull_request_threads
    (repositoryId : string) (pullRequestId : Z) (project : option string)
    (iteration baseIteration : option Z) (top skip : Z) : Completion ToolResult :=
  connection ← connectionProvider;
  gitApi ← getGitApi connection;
  threads ← getThreads gitApi repositoryId pullRequestId project iteration baseIteration;
  let paginatedThreads :=
    option_map (fun threads => Js.slice (Js.sort compareThreadIds threads) skip (skip + top))
      threads in
  mret {| content := [JSON_stringify paginatedThreads]; isError := None |}.

Definition list_branches_by_repo (repositoryId : string) (top : Z) : Completion ToolResult :=
  connection ← connectionProvider;
  gitApi ← getGitApi connection;
  branches ← getRefs gitApi repositoryId None;
  let filteredBranches := branchesFilterOutIrrelevantProperties branches top in
  mret {| content := [JSON_stringify filteredBranches]; isError := None |}.

Definition get_branch_by_name (repositoryId branchName : string) : Completion ToolResult :=
  connection ← connectionProvider;
  gitApi ← getGitApi connection;
  branches ← getRefs gitApi repositoryId None;
  let branch :=
    branches ≫= List.find (fun branch =>
      bool_decide (ref_name branch = Some ("refs/heads/" ++ branchName)%string)) in
  match branch with
  | None =>
      mret {| content := [("Branch " ++ branchName ++ " not found in repository "
                           ++ repositoryId)%string];
              isError := None |}
  | Some branch => mret {| content := [JSON_stringify branch]; isError := None |}
  end.

End Handlers.

(** Comparison of two strings code unit by code unit: the ordering called
    lexicographic, which the examples use for [localeCompare]. *)
Fixpoint codeUnitCompare (a b : string) : Z :=
  match a, b with
  | EmptyString, EmptyString => 0
  | EmptyString, String _ _ => -1
  | String _ _, EmptyString => 1
  | String x a', String y b' =>
      match Nat.compare (nat_of_ascii x) (nat_of_ascii y) with
      | Lt => -1
      | Gt => 1
      | Eq => codeUnitCompare a' b'
      end
  end%Z.

(** ** The enabled set as the specification words it *)

Section GateSpec.
Variable T : FamilyTables.
Variable env : option string.

(** [tool] is named literally in the override: one of its tokens, trimmed,
    is no category name and is [tool]. *)
Definition named_literally (tool : string) : Prop :=
  exists token, token ∈ override_tokens env
    /\ Map_get (TOOLS_CATEGORY_MAP T) (Js.trim token) = None
    /\ tool = Js.trim token.

(** [tool] is a member of a category that the override names. *)
Definition in_named_category (tool : string) : Prop :=
  exists token category, token ∈ override_tokens env
    /\ Map_get (TOOLS_CATEGORY_MAP T) (Js.trim token) = Some category
    /\ tool ∈ category.

(** Default-enabled, or named literally, or in a named category. *)
Definition allowed (tool : string) : Prop :=
  tool ∈ DEFAULT_ENABLED_TOOLS T \/ named_literally tool \/ in_named_category tool.
End GateSpec.

(** The override of the second example of the specification. *)
Definition repo_override : option string :=
  Some "category_repo,get_azure_devops_pull_request_by_id".

(** Modelled from the spec: the registrars of the families whose files are not
    under [src/] ([configureCoreTools], [configureWorkTools],
    [configureBuildTools], [configureWorkItemTools], [configureReleaseTools],
    [configureWikiTools], [configureTestPlanTools]). Section 4.2: for every
    tool of the family, register it when its name is absent from the disabled
    set, skip it otherwise. *)
Definition configureFamilyTools (tools : list string) (server : list string)
    (disabled : gset string) : list string :=
  foldl (fun server name => register_unless_disabled disabled name server) server tools.

(** [configureAllTools]: the disabled set is computed once and passed to the
    registrar of each family, in the order of the calls. *)
Definition configureAllTools (T : FamilyTables) (env : option string) : list string :=
  let disabledTools := disabledTools T env in
  let server := [] in
  let server := configureFamilyTools (CORE_TOOLS T) server disabledTools in
  let server := configureFamilyTools (WORK_TOOLS T) server disabledTools in
  let server := configureFamilyTools (BUILD_TOOLS T) server disabledTools in
  let server := configureRepoTools server disabledTools in
  let server := configureFamilyTools (WORKITEM_TOOLS T) server disabledTools in
  let server := configureFamilyTools (RELEASE_TOOLS T) server disabledTools in
  let server := configureFamilyTools (WIKI_TOOLS T) server disabledTools in
  let server := configureFamilyTools (Test_Plan_Tools T) server disabledTools in
  configureSearchTools server disabledTools.

(** The five tokens of the status schema
    [z.enum(["abandoned", "active", "all", "completed", "notSet"])]. *)
Definition status_tokens : list string :=
  ["abandoned"; "active"; "all"; "completed"; "notSet"].

(** A change that carries nothing but a change type. *)
Definition change_of_type (code : option Z) : GitChange :=
  {| gc_changeId := None; gc_originalPath := None; gc_changeType := code;
     gc_item := None; gc_url := None |}.

(** ** Branch names as the specification words them *)

(** [strip_prefix p s]: what follows [p] in [s], when [s] begins with [p]. *)
Fixpoint strip_prefix (p s : string) : option string :=
  match p, s with
  | EmptyString, _ => Some s
  | String a p', String b s' => if Ascii.eqb a b then strip_prefix p' s' else None
  | String _ _, EmptyString => None
  end.

(** The names of the refs under [refs/heads/], without that prefix, in the
    order of the input. *)
Definition branch_names (refs : list GitRef) : list string :=
  omap (fun ref => ref_name ref ≫= strip_prefix "refs/heads/") refs.

Definition ref_named (name : string) : GitRef :=
  {| ref_name := Some name; ref_objectId := None |}.

Definition example_refs : list GitRef :=
  [ref_named "refs/heads/main"; ref_named "refs/heads/feature/x"; ref_named "refs/tags/v1"].

Definition thread_with_id (id : Z) : GitPullRequestCommentThread :=
  {| thread_id := Some id; thread_status := None |}.

(** [a] may stand before [b] in an array sorted by [cmp]. *)
Definition in_order {A} (cmp : A -> A -> Z) (a b : A) : Prop := (cmp a b <= 0)%Z.

(** The branch names in the order of the listing: [b.localeCompare(a)] puts
    [a] after [b] when [b] collates before [a], that is, descending. *)
Definition sorted_branch_names (localeCompare : string -> string -> Z) (refs : list GitRef)
    : list string :=
  Js.sort (fun a b => localeCompare b a) (branch_names refs).

(** ** An upstream on which the handlers are run in the examples *)

(** A serialisation for the examples: the payload is not rendered. *)
Definition opaque_json {A : Type} : Stringify A := fun _ => "<json>".

Definition sample_repository : GitRepository :=
  {| repo_id := Some "7f1c"; repo_defaultBranch := Some "refs/heads/main";
     repo_name := Some "Alpha"; repo_isFork := Some false; repo_project := None;
     repo_url := None; repo_size := Some 12%Z |}.

Definition sample_pull_request : GitPullRequest :=
  {| pr_creationDate := Some "2025-01-01"; pr_closedDate := None;
     pr_description := Some "fix"; pr_pullRequestId := Some 42%Z;
     pr_sourceRefName := Some "refs/heads/topic";
     pr_targetRefName := Some "refs/heads/main";
     pr_status := Some PullRequestStatus.Active; pr_title := Some "Fix";
     pr_workItemRefs := None; pr_isDraft := Some false; pr_closedBy := None;
     pr_createdBy := None; pr_reviewers := None; pr_commits := None;
     pr_url := None; pr_mergeStatus := None |}.

Definition sample_commit : GitCommitRef :=
  {| gcr_commitId := Some "c0ffee"; gcr_comment := Some "fix"; gcr_commentTruncated := None;
     gcr_author := None; gcr_committer := None; gcr_url := None |}.

(** An upstream with the given repositories, pull request 42 with one commit,
    a diff endpoint that fails, and the three refs of [example_refs]. *)
Definition upstream_with (repositories : option (list GitRepository)) : GitApi :=
  {| getRepositories := fun _ => Return repositories;
     getPullRequest := fun _ id =>
       Return (if (id =? 42)%Z then Some sample_pull_request else None);
     getPullRequestCommits := fun _ _ => Return (Some [sample_commit]);
     getCommitDiffs := fun _ _ _ =>
       Throw (Error "TF401175: the version descriptor could not be resolved");
     getRefs := fun _ _ => Return (Some example_refs);
     getThreads := fun _ _ _ _ _ => Return (Some [thread_with_id 2; thread_with_id 1]) |}.

Definition connection_to (gitApi : GitApi) : Completion WebApi :=
  Return {| getGitApi := Return gitApi |}.

Definition sample_gitApi : GitApi := upstream_with (Some [sample_repository]).

Definition sample_connection : Completion WebApi := connection_to sample_gitApi.

(** ** White space and the deny-list variant of the gate *)

(** [isBlank s]: every code unit of [s] is white space. *)
Fixpoint isBlank (s : string) : bool :=
  match s with
  | EmptyString => true
  | String c s' => Js.isWhiteSpace c && isBlank s'
  end.

(** The second [configureAllTools] of [src/tools.ts] reads
    [ADO_MCP_DISABLED_TOOLS]; its category map has no entry for the core and
    search families, and the resolved tokens are the disabled set. *)
Section DenyList.
Variable T : FamilyTables.

Definition TOOLS_CATEGORY_MAP_denylist : list (string * list string) :=
  [ ("category_work", WORK_TOOLS T);
    ("category_build", BUILD_TOOLS T);
    ("category_repo", REPO_TOOLS.values);
    ("category_workitem", WORKITEM_TOOLS T);
    ("category_release", RELEASE_TOOLS T);
    ("category_wiki", WIKI_TOOLS T);
    ("category_testplan", Test_Plan_Tools T) ].

Definition resolve_token_denylist (tool : string) : list string :=
  let tool := Js.trim tool in
  match Map_get TOOLS_CATEGORY_MAP_denylist tool with
  | Some category => category
  | None => [tool]
  end.

Definition disabledTools_denylist (env : option string) : gset string :=
  list_to_set (flat_map resolve_token_denylist (Js.split "," (Js.or_else env ""))).
End DenyList.

From Stdlib Require DecimalString.

(** ** Pull-request queries and updates ([configureRepoTools], continued) *)

(** The search criteria that the two pull-request listings build.
    [criteria_repositoryId] is absent from the criteria of the listing by
    project. *)
Record PullRequestSearchCriteria := {
  criteria_status : Z;
  criteria_repositoryId : option string;
  criteria_creatorId : option string;
  criteria_reviewerId : option string;
}.

(** The argument of [createPullRequest]. *)
Record NewPullRequest := {
  new_sourceRefName : string;
  new_targetRefName : string;
  new_title : string;
  new_description : option string;
  new_isDraft : bool;
  new_workItemRefs : list ResourceRef;
}.

(** Further calls of the Git client: the queries, each made once in an
    invocation, and the two updates that an invocation makes once. *)
Record PullRequestApi := {
  (** [getPullRequests(repositoryId, searchCriteria, undefined, undefined, skip, top)] *)
  getPullRequests :
    string -> PullRequestSearchCriteria -> Z -> Z -> Completion (option (list GitPullRequest));
  (** [getPullRequestsByProject(project, searchCriteria, undefined, skip, top)] *)
  getPullRequestsByProject :
    string -> PullRequestSearchCriteria -> Z -> Z -> Completion (option (list GitPullRequest));
  (** [updatePullRequest({ status }, repositoryId, pullRequestId)] *)
  updatePullRequest : Z -> string -> Z -> Completion GitPullRequest;
  createPullRequest : NewPullRequest -> string -> Completion GitPullRequest;
}.

Record PullRequestConnection := { getPullRequestApi : Completion PullRequestApi }.

(** What the handlers read of the result of [getCurrentUserDetails]
    ([./auth.js]): [data.authenticatedUser.id]. *)
Record UserDetails := { authenticatedUser_id : string }.

(** [{ id: id.trim() }] *)
Definition workItemRef (id : string) : ResourceRef :=
  {| rr_id := Some (Js.trim id); rr_url := None |}.

(** [workItems ? workItems.split(" ").map((id) => ({ id: id.trim() })) : []] *)
Definition workItemRefsOf (workItems : option string) : list ResourceRef :=
  match workItems with
  | Some workItems =>
      if Js.truthy workItems then map workItemRef (Js.split " " workItems) else []
  | None => []
  end.

Section PullRequestHandlers.
Context {stringify_pull_requests : Stringify (list PullRequestResult)}
        {stringify_upstream_pull_request : Stringify GitPullRequest}.
Variable connectionProvider : Completion PullRequestConnection.
(** [getCurrentUserDetails(tokenProvider, connectionProvider)] *)
Variable getCurrentUserDetails : Completion UserDetails.

(** The block that fills [creatorId] and [reviewerId]: the user is looked up
    only when one of the two flags is set. *)
Definition withCurrentUser (created_by_me i_am_reviewer : bool)
    (searchCriteria : PullRequestSearchCriteria) : Completion PullRequestSearchCriteria :=
  if created_by_me || i_am_reviewer then
    data ← getCurrentUserDetails;
    let userId := authenticatedUser_id data in
    let searchCriteria :=
      if created_by_me then
        {| criteria_status := criteria_status searchCriteria;
           criteria_repositoryId := criteria_repositoryId searchCriteria;
           criteria_creatorId := Some userId;
           criteria_reviewerId := criteria_reviewerId searchCriteria |}
      else searchCriteria in
    let searchCriteria :=
      if i_am_reviewer then
        {| criteria_status := criteria_status searchCriteria;
           criteria_repositoryId := criteria_repositoryId searchCriteria;
           criteria_creatorId := criteria_creatorId searchCriteria;
           criteria_reviewerId := Some userId |}
      else searchCriteria in
    mret searchCriteria
  else mret searchCriteria.

(** [pullRequests ? pullRequests.map((pr) => toPullRequestResult(pr)) : []],
    serialised into the envelope. *)
Definition pullRequestsEnvelope (pullRequests : option (list GitPullRequest)) : ToolResult :=
  let prResult :=
    match pullRequests with
    | Some pullRequests => map toPullRequestResult pullRequests
    | None => []
    end in
  {| content := [JSON_stringify prResult]; isError := None |}.

Definition list_pull_requests_by_repo (repositoryId : string) (top skip : Z)
    (created_by_me i_am_reviewer : bool) (status : string) : Completion ToolResult :=
  connection ← connectionProvider;
  gitApi ← getPullRequestApi connection;
  statusCode ← pullRequestStatusStringToInt status;
  let searchCriteria :=
    {| criteria_status := statusCode; criteria_repositoryId := Some repositoryId;
       criteria_creatorId := None; criteria_reviewerId := None |} in
  searchCriteria ← withCurrentUser created_by_me i_am_reviewer searchCriteria;
  pullRequests ← getPullRequests gitApi repositoryId searchCriteria skip top;
  mret (pullRequestsEnvelope pullRequests).

Definition list_pull_requests_by_project (project : string) (top skip : Z)
    (created_by_me i_am_reviewer : bool) (status : string) : Completion ToolResult :=
  connection ← connectionProvider;
  gitApi ← getPullRequestApi connection;
  statusCode ← pullRequestStatusStringToInt status;
  let gitPullRequestSearchCriteria :=
    {| criteria_status := statusCode; criteria_repositoryId := None;
       criteria_creatorId := None; criteria_reviewerId := None |} in
  gitPullRequestSearchCriteria ←
    withCurrentUser created_by_me i_am_reviewer gitPullRequestSearchCriteria;
  pullRequests ←
    getPullRequestsByProject gitApi project gitPullRequestSearchCriteria skip top;
  mret (pullRequestsEnvelope pullRequests).

(** [status === "active" ? 3 : 2] *)
Definition statusValueOf (status : string) : Z :=
  if String.eqb status "active" then 3%Z else 2%Z.

Definition update_pull_request_status (repositoryId : string) (pullRequestId : Z)
    (status : string) : Completion ToolResult :=
  connection ← connectionProvider;
  gitApi ← getPullRequestApi connection;
  let statusValue := statusValueOf status in
  updatedPullRequest ← updatePullRequest gitApi statusValue repositoryId pullRequestId;
  mret {| content := [JSON_stringify updatedPullRequest]; isError := None |}.

Definition create_pull_request (repositoryId sourceRefName targetRefName title : string)
    (description : option string) (isDraft : bool) (workItems : option string)
    : Completion ToolResult :=
  connection ← connectionProvider;
  gitApi ← getPullRequestApi connection;
  let workItemRefs := workItemRefsOf workItems in
  pullRequest ←
    createPullRequest gitApi
      {| new_sourceRefName := sourceRefName; new_targetRefName := targetRefName;
         new_title := title; new_description := description; new_isDraft := isDraft;
         new_workItemRefs := workItemRefs |}
      repositoryId;
  mret {| content := [JSON_stringify pullRequest]; isError := None |}.
End PullRequestHandlers.

(** ** Reviewers: calls that change the upstream

    [update_pull_request_reviewers] may call [deletePullRequestReviewer]
    several times, so the upstream is a state [U] that every call may change,
    also when it fails. *)
Section Reviewers.
Variable U : Type.

Record ReviewerApi := {
  (** [createPullRequestReviewers(reviewers, repositoryId, pullRequestId)] *)
  createPullRequestReviewers :
    U -> list string -> string -> Z -> U * Completion (list IdentityRefWithVote);
  (** [deletePullRequestReviewer(repositoryId, pullRequestId, reviewerId)] *)
  deletePullRequestReviewer : U -> string -> Z -> string -> U * Completion unit;
}.

Record ReviewerConnection := { getReviewerApi : Completion ReviewerApi }.

Context {stringify_reviewers : Stringify (list IdentityRefWithVote)}.
Variable connectionProvider : Completion ReviewerConnection.

(** [for (const reviewerId of reviewerIds) { await gitApi.deletePullRequestReviewer(...) }] *)
Fixpoint deleteReviewers (gitApi : ReviewerApi) (repositoryId : string) (pullRequestId : Z)
    (reviewerIds : list string) (u : U) : U * Completion unit :=
  match reviewerIds with
  | [] => (u, Return tt)
  | reviewerId :: rest =>
      match deletePullRequestReviewer gitApi u repositoryId pullRequestId reviewerId with
      | (u', Return _) => deleteReviewers gitApi repositoryId pullRequestId rest u'
      | (u', Throw e) => (u', Throw e)
      end
  end.

(** [String(n)] for an integer that JavaScript prints in decimal digits (below
    10^21 in absolute value), as the ids and status codes are. *)
Definition Number_toString (n : Z) : string :=
  Stdlib.Numbers.DecimalString.NilZero.string_of_int (Z.to_int n).

Definition update_pull_request_reviewers (repositoryId : string) (pullRequestId : Z)
    (reviewerIds : list string) (action : string) (u : U) : U * Completion ToolResult :=
  match connectionProvider with
  | Throw e => (u, Throw e)
  | Return connection =>
      match getReviewerApi connection with
      | Throw e => (u, Throw e)
      | Return gitApi =>
          if String.eqb action "add" then
            match createPullRequestReviewers gitApi u reviewerIds repositoryId pullRequestId with
            | (u', Return updatedPullRequest) =>
                (u', Return {| content := [JSON_stringify updatedPullRequest];
                               isError := None |})
            | (u', Throw e) => (u', Throw e)
            end
          else
            match deleteReviewers gitApi repositoryId pullRequestId reviewerIds u with
            | (u', Return _) =>
                (u', Return {| content :=
                                 [("Reviewers with IDs " ++ String.concat ", " reviewerIds
                                   ++ " removed from pull request "
                                   ++ Number_toString pullRequestId ++ ".")%string];
                               isError := None |})
            | (u', Throw e) => (u', Throw e)
            end
      end
  end.
End Reviewers.

Arguments createPullRequestReviewers {U} _ _ _ _ _.
Arguments deletePullRequestReviewer {U} _ _ _ _ _.
Arguments getReviewerApi {U} _.
Arguments deleteReviewers {U} _ _ _ _ _.
Arguments update_pull_request_reviewers {U stringify_reviewers} _ _ _ _ _ _.

(** [hasNoWhiteSpace s]: no code unit of [s] is white space. *)
Fixpoint hasNoWhiteSpace (s : string) : bool :=
  match s with
  | EmptyString => true
  | String c s' => negb (Js.isWhiteSpace c) && hasNoWhiteSpace s'
  end.

(** The number of occurrences of a code unit in a string. *)
Fixpoint occurrences (c : ascii) (s : string) : nat :=
  match s with
  | EmptyString => 0
  | String c' s' => (if Ascii.eqb c' c then 1 else 0) + occurrences c s'
  end.

(** An upstream for the examples: the state is the list of the reviewers of
    the pull request; removing a reviewer who is not in it fails. *)
Definition sample_reviewer_api : ReviewerApi (list string) :=
  {| createPullRequestReviewers := fun reviewers ids _ _ =>
       (reviewers ++ ids,
        Return (map (fun id =>
                       {| irv_id := Some id; irv_displayName := None; irv_uniqueName := None;
                          irv_vote := Some 0%Z; irv_hasDeclined := None;
                          irv_isRequired := None; irv_url := None |}) ids));
     deletePullRequestReviewer := fun reviewers _ _ id =>
       if bool_decide (id ∈ reviewers)
       then (List.filter (fun r => negb (String.eqb r id)) reviewers, Return tt)
       else (reviewers, Throw (Error "reviewer not found")) |}.

Definition sample_reviewer_connection : Completion (ReviewerConnection (list string)) :=
  Return {| getReviewerApi := Return sample_reviewer_api |}.

(** An upstream for the examples: the listings answer the active pull
    requests with [sample_pull_request], an update echoes the status. *)
Definition sample_pull_request_api : PullRequestApi :=
  {| getPullRequests := fun _ criteria _ _ =>
       Return (if (criteria_status criteria =? PullRequestStatus.Active)%Z
               then Some [sample_pull_request] else None);
     getPullRequestsByProject := fun _ _ _ _ => Return (Some []);
     updatePullRequest := fun status _ _ =>
       if (status =? PullRequestStatus.Completed)%Z
       then Throw (Error "TF401181: the pull request cannot be completed")
       else Return sample_pull_request;
     createPullRequest := fun _ _ => Return sample_pull_request |}.

Definition sample_pull_request_connection : Completion PullRequestConnection :=
  Return {| getPullRequestApi := Return sample_pull_request_api |}.

(** ** Code search ([src/tools/search.ts]) *)

Record CodeSearchFilters := {
  Project : option (list string);
  Repository : option (list string);
  Path : option (list string);
  Branch : option (list string);
  CodeElement : option (list string);
}.

(** [skip_] and [top_] are the properties [$skip] and [$top]. *)
Record CodeSearchRequest := {
  searchText : string;
  skip_ : Z;
  top_ : Z;
  filters : option CodeSearchFilters;
  includeFacets : option bool;
}.

Record IdHolder := { holder_id : option string }.
Record VersionEntry := { entry_changeId : option string }.

(** A result of the search service: [versions] is absent when the property is
    missing or is no array. *)
Record SearchResult := {
  sr_project : option IdHolder;
  sr_repository : option IdHolder;
  sr_path : option string;
  sr_versions : option (list VersionEntry);
}.

Inductive CombinedResult :=
| GitItemEntry (gitItem : GitItem)
| ErrorEntry (error : string).

(** [{ version: changeId, versionType: 2, versionOptions: 0 }] *)
Record ItemVersionDescriptor := {
  item_version : string;
  item_versionType : Z;
  item_versionOptions : Z;
}.

(** The calls of the Git and Core clients that the search makes. [getItem] is
    a read, taken to answer alike for the same arguments within an
    invocation. *)
Record SearchGitApi := {
  (** [getItem(repositoryId, filePath, projectId, ..., versionDescriptor, ...)] *)
  getItem : string -> string -> string -> ItemVersionDescriptor -> Completion GitItem;
  getRepository : string -> Completion GitRepository;
}.

Record CoreApi := { getProject : string -> Completion TeamProjectReference }.

Record SearchConnection := {
  getSearchGitApi : Completion SearchGitApi;
  getCoreApi : Completion CoreApi;
}.

(** What the search uses of [AzureDevOpsClientManager]. *)
Record ClientManager := {
  getToken : Completion string;
  getClient : Completion SearchConnection;
  getOrgName : Completion (option string);
  getUserAgent : string;
}.

Record FetchInit := {
  fetch_method : string;
  fetch_headers : list (string * string);
  fetch_body : string;
}.

Record Response := {
  response_ok : bool;
  response_status : Z;
  response_statusText : string;
  response_text : Completion string;
}.

Section CodeSearch.
Context {stringify_search_result : Stringify SearchResult}
        {stringify_request : Stringify CodeSearchRequest}
        {stringify_combined : Stringify (list CombinedResult)}.
(** [err instanceof Error ? err.message : String(err)] *)
Variable thrownText : Thrown -> string.
(** [validate] of the [uuid] package. *)
Variable validate : string -> bool.
(** [apiVersion] of [../utils.js]. *)
Variable apiVersion : string.
Variable fetch : string -> FetchInit -> Completion Response.
(** [JSON.parse(resultText)] read as [{ results?: SearchResult[] }]: the
    [results] when they are an array. *)
Variable parseResults : string -> Completion (option (list SearchResult)).

(** The body of the loop of [fetchCombinedResults] for one result: what is
    pushed on [combinedResults]. *)
Definition combineOne (gitApi : SearchGitApi) (searchResult : SearchResult) : CombinedResult :=
  let projectId := sr_project searchResult ≫= holder_id in
  let repositoryId := sr_repository searchResult ≫= holder_id in
  let filePath := sr_path searchResult in
  let changeId :=
    match sr_versions searchResult with
    | Some (first :: _) => entry_changeId first
    | Some [] | None => None
    end in
  match projectId, repositoryId, filePath, changeId with
  | Some projectId, Some repositoryId, Some filePath, Some changeId =>
      if Js.truthy projectId && Js.truthy repositoryId && Js.truthy filePath
         && Js.truthy changeId
      then
        let versionDescriptor :=
          {| item_version := changeId; item_versionType := 2; item_versionOptions := 0 |} in
        match getItem gitApi repositoryId filePath projectId versionDescriptor with
        | Return item => GitItemEntry item
        | Throw err => ErrorEntry (thrownText err)
        end
      else
        ErrorEntry ("Missing projectId, repositoryId, filePath, or changeId in the result: "
                    ++ JSON_stringify searchResult)
  | _, _, _, _ =>
      ErrorEntry ("Missing projectId, repositoryId, filePath, or changeId in the result: "
                  ++ JSON_stringify searchResult)
  end.

(** [for (const searchResult of topSearchResults) { ... combinedResults.push(...) }] *)
Definition fetchCombinedResults (topSearchResults : list SearchResult) (gitApi : SearchGitApi)
    : Completion (list CombinedResult) :=
  mret (foldl (fun combinedResults searchResult =>
                 combinedResults ++ [combineOne gitApi searchResult])
              [] topSearchResults).

(** The two "ID check" blocks: a filter that is a UUID is replaced by the
    name of what it identifies, and the project of the repository replaces
    the project filter. *)
Definition resolveFilters (connection : SearchConnection) (gitApi : SearchGitApi)
    (projectFilter repoFilter : option string) : Completion (option string * option string) :=
  projectFilter ←
    match projectFilter with
    | Some id =>
        if Js.truthy id && validate id then
          coreApi ← getCoreApi connection;
          project ← getProject coreApi id;
          mret (tpr_name project)
        else mret projectFilter
    | None => mret projectFilter
    end;
  match repoFilter with
  | Some id =>
      if Js.truthy id && validate id then
        repo ← getRepository gitApi id;
        let repoFilter := repo_name repo in
        let projectFilter :=
          match repo_project repo with
          | Some project => tpr_name project
          | None => projectFilter
          end in
        mret (projectFilter, repoFilter)
      else mret (projectFilter, repoFilter)
  | None => mret (projectFilter, repoFilter)
  end.

(** The two [throw]s on the filters. *)
Definition checkFilters (projectFilter repoFilter pathFilter : option string)
    : Completion unit :=
  if Js.truthy_opt repoFilter && negb (Js.truthy_opt projectFilter) then
    Throw (Error "project filter is reuiqred when repository filter is used.")
  else if Js.truthy_opt pathFilter
          && (negb (Js.truthy_opt repoFilter) || negb (Js.truthy_opt projectFilter)) then
    Throw (Error "Both project and repository filter are reuiqred when path filter is used.")
  else mret tt.

(** [f ? [f] : undefined] *)
Definition filterList (f : option string) : option (list string) :=
  match f with
  | Some s => if Js.truthy s then Some [s] else None
  | None => None
  end.

(** The assignment to [searchRequest.filters]. *)
Definition withFilters (searchRequest : CodeSearchRequest)
    (projectFilter repoFilter pathFilter : option string) : CodeSearchRequest :=
  if Js.truthy_opt repoFilter || Js.truthy_opt projectFilter || Js.truthy_opt pathFilter then
    {| searchText := searchText searchRequest;
       skip_ := skip_ searchRequest;
       top_ := top_ searchRequest;
       filters :=
         Some {| Project := filterList projectFilter;
                 Repository := filterList repoFilter;
                 Path := filterList pathFilter;
                 Branch := None;
                 CodeElement := None |};
       includeFacets := includeFacets searchRequest |}
  else searchRequest.

(** The request that is sent: the part of [performCodeSearch] between the
    clients and [fetch]. *)
Definition prepareSearchRequest (connection : SearchConnection) (gitApi : SearchGitApi)
    (searchRequest : CodeSearchRequest) (projectFilter repoFilter pathFilter : option string)
    : Completion CodeSearchRequest :=
  '(projectFilter, repoFilter) ← resolveFilters connection gitApi projectFilter repoFilter;
  _ ← checkFilters projectFilter repoFilter pathFilter;
  mret (withFilters searchRequest projectFilter repoFilter pathFilter).

(** [results.slice(0, Math.min(searchRequest.$top, results.length))], or the
    empty list when there is no array. *)
Definition topResultsOf (searchRequest : CodeSearchRequest)
    (results : option (list SearchResult)) : list SearchResult :=
  match results with
  | Some results =>
      Js.slice results 0 (Z.min (top_ searchRequest) (Z.of_nat (length results)))
  | None => []
  end.

Definition performCodeSearch (searchRequest : CodeSearchRequest) (adoManager : ClientManager)
    (projectFilter repoFilter pathFilter : option string) : Completion string :=
  accessToken ← getToken adoManager;
  connection ← getClient adoManager;
  orgName ← getOrgName adoManager;
  gitApi ← getSearchGitApi connection;
  let url :=
    ("https://almsearch.dev.azure.com/" ++ template_opt orgName
     ++ "/_apis/search/codesearchresults?api-version=" ++ apiVersion)%string in
  searchRequest ←
    prepareSearchRequest connection gitApi searchRequest projectFilter repoFilter pathFilter;
  response ←
    fetch url
      {| fetch_method := "POST";
         fetch_headers :=
           [ ("Content-Type", "application/json");
             ("Authorization", ("Bearer " ++ accessToken)%string);
             ("User-Agent", getUserAgent adoManager) ];
         fetch_body := JSON_stringify searchRequest |};
  if negb (response_ok response) then
    Throw (Error ("Azure DevOps Code Search API error: "
                  ++ Number_toString (response_status response) ++ " "
                  ++ response_statusText response))
  else
    resultText ← response_text response;
    results ← parseResults resultText;
    let topResults := topResultsOf searchRequest results in
    combinedResults ← fetchCombinedResults topResults gitApi;
    mret (resultText ++ JSON_stringify combinedResults)%string.
End CodeSearch.

(** The four values that the loop of [fetchCombinedResults] reads of a
    result: the id of the project, the id of the repository, the path and
    the change id of the first version. *)
Definition fields_of (searchResult : SearchResult) : list (option string) :=
  [ sr_project searchResult ≫= holder_id;
    sr_repository searchResult ≫= holder_id;
    sr_path searchResult;
    match sr_versions searchResult with
    | Some (first :: _) => entry_changeId first
    | _ => None
    end ].

(** A search service for the examples: it answers two results, the second
    without a path; [getItem] fails. *)
Definition sample_search_result (path : option string) : SearchResult :=
  {| sr_project := Some {| holder_id := Some "p1" |};
     sr_repository := Some {| holder_id := Some "r1" |};
     sr_path := path;
     sr_versions := Some [{| entry_changeId := Some "c0ffee" |}] |}.

Definition sample_search_gitApi : SearchGitApi :=
  {| getItem := fun _ _ _ _ => Throw (Error "TF401174: the item could not be found");
     getRepository := fun _ => Throw (Error "TF401019: the repository does not exist") |}.

Definition sample_search_connection : SearchConnection :=
  {| getSearchGitApi := Return sample_search_gitApi;
     getCoreApi := Throw (Error "no core client") |}.

Definition sample_manager : ClientManager :=
  {| getToken := Return "token";
     getClient := Return sample_search_connection;
     getOrgName := Return (Some "contoso");
     getUserAgent := "agent" |}.

Definition sample_fetch (ok : bool) (url : string) (init : FetchInit) : Completion Response :=
  Return {| response_ok := ok; response_status := 503;
            response_statusText := "Service Unavailable";
            response_text := Return "{}" |}.

Definition sample_parse (text : string) : Completion (option (list SearchResult)) :=
  Return (Some [sample_search_result (Some "/a.ts"); sample_search_result None]).

Definition sample_request : CodeSearchRequest :=
  {| searchText := "needle"; skip_ := 0; top_ := 5; filters := None; includeFacets := None |}.

(** A rendering of the combined results for the examples: "item" or the
    error of each entry. *)
Definition show_combined : Stringify (list CombinedResult) := fun entries =>
  String.concat ";"
    (map (fun entry => match entry with GitItemEntry _ => "item" | ErrorEntry e => e end)
       entries).

(** ** The client manager ([src/azure-client.ts]) *)

Module AzureClient.

(** The fields of [AzureDevOpsClientManager] that its methods read or write
    after the constructor. *)
Record AzureDevOpsClientManager := {
  orgName : option string;
  configDir : string;
  configFile : option string;
}.

Section ClientManagerModel.
(** The file system is a state; its operations are those of [fs] that the
    class calls. [mkdirSync] and [writeFileSync] may change the state and may
    throw; [readFileSync] may throw. *)
Variable FS : Type.
Variable existsSync : FS -> string -> bool.
Variable mkdirSync : FS -> string -> FS * Completion unit.
Variable readFileSync : FS -> string -> Completion string.
Variable writeFileSync : FS -> string -> string -> FS * Completion unit.
(** [JSON.parse(configData)] followed by [.orgName]. *)
Variable parseConfig : string -> Completion (option string).
(** [JSON.stringify({ orgName }, null, 2)] *)
Variable stringifyConfig : string -> string.
(** [os.homedir()] and [path.join]. *)
Variable homedir : string.
Variable path_join : string -> string -> string.
(** [new DefaultAzureCredential().getToken(scope)], of which [token.token] is
    used. *)
Variable credentialToken : Completion string.
(** [new azdev.WebApi(orgUrl, authHandler, undefined, options)] *)
Variable newWebApi : string -> string -> WebApi.

(** The [try] of [loadOrgNameFromFile] swallows every failure. *)
Definition loadOrgNameFromFile (this : AzureDevOpsClientManager) (fs : FS) : option string :=
  match
    try_catch
      (match configFile this with
       | None => mret None
       | Some configFile =>
           if existsSync fs configFile then
             configData ← readFileSync fs configFile;
             parseConfig configData
           else mret None
       end)
      (fun error => mret None)
  with
  | Return name => name
  | Throw _ => None
  end.

(** [constructor(userAgentComposer, productVersion, orgName?)] *)
Definition newClientManager (orgName : option string) (fs : FS)
    : FS * AzureDevOpsClientManager :=
  let configDir := path_join homedir ".azure-devops-mcp" in
  let configFile := path_join configDir "config.json" in
  let '(fs, configFile) :=
    if negb (existsSync fs configDir) then
      match mkdirSync fs configDir with
      | (fs', Return _) => (fs', Some configFile)
      | (fs', Throw _) => (fs', None)
      end
    else (fs, Some configFile) in
  let this := {| orgName := orgName; configDir := configDir; configFile := configFile |} in
  if negb (Js.truthy_opt orgName) then
    (fs, {| orgName := loadOrgNameFromFile this fs; configDir := configDir;
            configFile := configFile |})
  else (fs, this).

Definition getOrgName (this : AzureDevOpsClientManager) : Completion (option string) :=
  mret (orgName this).

(** [saveOrgNameToFile]: a failure of the write is swallowed. *)
Definition saveOrgNameToFile (this : AzureDevOpsClientManager) (name : string) (fs : FS) : FS :=
  match configFile this with
  | None => fs
  | Some configFile => fst (writeFileSync fs configFile (stringifyConfig name))
  end.

Definition setOrgName (this : AzureDevOpsClientManager) (name : string) (fs : FS)
    : FS * AzureDevOpsClientManager :=
  let this :=
    {| orgName := Some name; configDir := configDir this; configFile := configFile this |} in
  (saveOrgNameToFile this name fs, this).

Definition organization_missing : string :=
  "Azure DevOps organization name not defined. Confirm with user on the name then use 'change-azure-devops-org' to specify the organization.".

(** [getClient]: the token is acquired before the organization is looked at. *)
Definition getClient (this : AzureDevOpsClientManager) : Completion WebApi :=
  token ← credentialToken;
  orgName ← getOrgName this;
  match orgName with
  | Some orgName =>
      if Js.truthy orgName then
        let orgUrl := ("https://dev.azure.com/" ++ orgName)%string in
        mret (newWebApi orgUrl token)
      else Throw (Error organization_missing)
  | None => Throw (Error organization_missing)
  end.
End ClientManagerModel.

End AzureClient.

(** A file system for the examples: the files by their paths; every
    directory exists and every write succeeds. *)
Definition memory_existsSync (fs : gmap string string) (path : string) : bool :=
  bool_decide (path = "/home/.azure-devops-mcp") || bool_decide (is_Some (fs !! path)).

Definition memory_readFileSync (fs : gmap string string) (path : string) : Completion string :=
  match fs !! path with
  | Some data => Return data
  | None => Throw (Error "ENOENT")
  end.

Definition memory_writeFileSync (fs : gmap string string) (path data : string)
    : gmap string string * Completion unit :=
  (<[path := data]> fs, Return tt).

Definition memory_mkdirSync (fs : gmap string string) (path : string)
    : gmap string string * Completion unit :=
  (fs, Return tt).

(** A configuration is stored as the bare name in the examples. *)
Definition bare_parseConfig (data : string) : Completion (option string) :=
  Return (Some data).

Definition slash_join (a b : string) : string := (a ++ "/" ++ b)%string.

(** * Properties *)

(** ** String primitives on examples *)

Example trim_examples : Js.trim "  category_repo  " = "category_repo" /\ Js.trim "" = "".
Proof. split; reflexivity. Qed.

Example split_examples :
  Js.split "," "a,b" = ["a"; "b"] /\ Js.split "," "" = [""]
  /\ Js.split "," ",x," = [""; "x"; ""].
Proof. repeat split; reflexivity. Qed.

Example replace_examples :
  Js.replace "refs/heads/main" "refs/heads/" "" = "main"
  /\ Js.replace "refs/tags/v1" "refs/heads/" "" = "refs/tags/v1".
Proof. split; reflexivity. Qed.

Example sort_example : Js.sort Z.sub [3; 1; 2]%Z = [1; 2; 3]%Z.
Proof. reflexivity. Qed.

(** ** The enablement gate *)

(** Deleting the names of a list one by one leaves the names that are not in
    the list. *)
Lemma elem_of_foldl_delete (names : list string) (s : gset string) (t : string) :
  t ∈ foldl (fun disabled tool => disabled ∖ {[tool]}) s names <-> t ∈ s /\ t ∉ names.
Proof.
  revert s. induction names as [|n names IH]; intros s; simpl.
  - split; [intros Ht; split; [exact Ht | apply not_elem_of_nil] | tauto].
  - rewrite IH, elem_of_difference, elem_of_singleton, not_elem_of_cons. tauto.
Qed.

Lemma elem_of_flat_map {A B} (f : A -> list B) (l : list A) (b : B) :
  b ∈ flat_map f l <-> exists a, a ∈ l /\ b ∈ f a.
Proof.
  rewrite list_elem_of_In, in_flat_map.
  setoid_rewrite list_elem_of_In. reflexivity.
Qed.

Section GateProperties.
Variable T : FamilyTables.

Lemma elem_of_disabledTools env t :
  t ∈ disabledTools T env <-> t ∈ all_tool_names T /\ t ∉ enabled_names T env.
Proof.
  unfold disabledTools. rewrite elem_of_foldl_delete, elem_of_list_to_set. tauto.
Qed.

Lemma elem_of_resolve_token token t :
  t ∈ resolve_token T token <->
  (Map_get (TOOLS_CATEGORY_MAP T) (Js.trim token) = None /\ t = Js.trim token)
  \/ (exists category,
        Map_get (TOOLS_CATEGORY_MAP T) (Js.trim token) = Some category /\ t ∈ category).
Proof.
  unfold resolve_token.
  destruct (Map_get (TOOLS_CATEGORY_MAP T) (Js.trim token)) as [category|].
  - split.
    + intros Ht. right. exists category. auto.
    + intros [[Hn _] | [c [Hc Ht]]]; [discriminate | congruence].
  - rewrite list_elem_of_singleton. split.
    + intros ->. left. auto.
    + intros [[_ Ht] | [c [Hc _]]]; [exact Ht | discriminate].
Qed.

Lemma elem_of_enabled_names env t : t ∈ enabled_names T env <-> allowed T env t.
Proof.
  unfold enabled_names, allowed, named_literally, in_named_category.
  rewrite elem_of_app, elem_of_flat_map.
  split.
  - intros [Hd | [token [Htok Ht]]]; [left; exact Hd | right].
    apply elem_of_resolve_token in Ht as [[Hn Ht] | [c [Hc Ht]]].
    + left. exists token. auto.
    + right. exists token, c. auto.
  - intros [Hd | [[token [Htok [Hn Ht]]] | [token [c [Htok [Hc Ht]]]]]].
    + left. exact Hd.
    + right. exists token. split; [exact Htok |].
      apply elem_of_resolve_token. left. auto.
    + right. exists token. split; [exact Htok |].
      apply elem_of_resolve_token. right. exists c. auto.
Qed.

Lemma all_tool_names_eq :
  all_tool_names T =
  CORE_TOOLS T ++ WORK_TOOLS T ++ BUILD_TOOLS T ++ REPO_TOOLS.values
  ++ WORKITEM_TOOLS T ++ RELEASE_TOOLS T ++ WIKI_TOOLS T ++ Test_Plan_Tools T
  ++ SEARCH_TOOLS.values.
Proof.
  unfold all_tool_names, Map_values, TOOLS_CATEGORY_MAP. cbn [map snd flat_map].
  now rewrite app_nil_r.
Qed.





Lemma enabled_iff_allowed env t :
  t ∈ all_tool_names T -> (t ∉ disabledTools T env <-> allowed T env t).
Proof.
  intros Hall. rewrite elem_of_disabledTools, <- elem_of_enabled_names.
  destruct (decide (t ∈ enabled_names T env)); tauto.
Qed.
End GateProperties.

(** ** Registration *)

Lemma elem_of_register_all (disabled : gset string) (names server : list string) (t : string) :
  t ∈ foldl (fun server name => register_unless_disabled disabled name server) server names
  <-> t ∈ server \/ (t ∈ names /\ t ∉ disabled).
Proof.
  revert server. induction names as [|n names IH]; intros server; simpl.
  - rewrite elem_of_nil. tauto.
  - rewrite IH, elem_of_cons. unfold register_unless_disabled.
    destruct (bool_decide_reflect (n ∈ disabled)) as [Hin | Hout].
    + split; [tauto |]. intros [Hs | [[-> | Hn] Hd]]; tauto.
    + rewrite elem_of_app, list_elem_of_singleton.
      split; [intros [[Hs | ->] | Hn]; tauto |].
      intros [Hs | [[-> | Hn] Hd]]; tauto.
Qed.




(** When none of the names is disabled, all are registered, in order. *)
Lemma register_all_enabled (disabled : gset string) (names server : list string) :
  Forall (fun name => name ∉ disabled) names ->
  foldl (fun server name => register_unless_disabled disabled name server) server names
  = server ++ names.
Proof.
  intros Hall. revert server.
  induction Hall as [|n names Hn _ IH]; intros server; simpl.
  - now rewrite app_nil_r.
  - unfold register_unless_disabled at 2. rewrite bool_decide_eq_false_2 by exact Hn.
    rewrite IH, <- app_assoc. reflexivity.
Qed.

(** With the registrars of the other families as section 4.2 has them, the
    names that [configureAllTools] registers are the tools of the catalogue
    that are allowed. *)
Lemma configureAllTools_registers (T : FamilyTables) (env : option string) (t : string) :
  t ∈ configureAllTools T env <-> t ∈ all_tool_names T /\ allowed T env t.
Proof.
  unfold configureAllTools, configureFamilyTools, configureRepoTools, configureSearchTools.
  cbv zeta. rewrite !elem_of_register_all, elem_of_nil.
  rewrite all_tool_names_eq, !elem_of_app.
  assert (Hiff : t ∈ all_tool_names T -> (t ∉ disabledTools T env <-> allowed T env t))
    by apply enabled_iff_allowed.
  rewrite all_tool_names_eq, !elem_of_app in Hiff.
  unfold REPO_TOOLS.values, SEARCH_TOOLS.values in *.
  rewrite !elem_of_cons, !elem_of_nil in *.
  tauto.
Qed.

(** *** The override ["category_repo,get_azure_devops_pull_request_by_id"] *)

Lemma repo_override_enabled_names (T : FamilyTables) :
  enabled_names T repo_override
  = DEFAULT_ENABLED_TOOLS T ++ REPO_TOOLS.values
    ++ [REPO_TOOLS.get_azure_devops_pull_request_by_id].
Proof. reflexivity. Qed.

Lemma repo_override_enabled (T : FamilyTables) (t : string) :
  t ∈ enabled_names T repo_override
  <-> t ∈ REPO_TOOLS.values \/ t ∈ DEFAULT_ENABLED_TOOLS T.
Proof.
  rewrite repo_override_enabled_names, !elem_of_app, list_elem_of_singleton.
  split; [| tauto].
  intros [Hd | [Hr | ->]]; [tauto | tauto |].
  left. unfold REPO_TOOLS.values. apply list_elem_of_further, list_elem_of_here.
Qed.

(** C2, as the code has it. Under the override
    ["category_repo,get_azure_devops_pull_request_by_id"] a tool of the
    catalogue is enabled exactly when it is a tool of the repo category or a
    default-enabled tool: [configureRepoTools] registers every tool of the repo
    category; a tool of another category is disabled unless it is
    default-enabled; and the default-enabled tools of the core and search
    categories stay enabled. *)
Theorem repo_override_enables_repo_and_defaults (T : FamilyTables) (t : string) :
  (t ∈ all_tool_names T ->
     (t ∉ disabledTools T repo_override
      <-> t ∈ REPO_TOOLS.values \/ t ∈ DEFAULT_ENABLED_TOOLS T))
  /\ (forall server,
        configureRepoTools server (disabledTools T repo_override)
        = server ++
          [ REPO_TOOLS.get_azure_devops_repositories;
            REPO_TOOLS.get_azure_devops_pull_request_by_id;
            REPO_TOOLS.get_azure_devops_changes_by_commit;
            REPO_TOOLS.get_azure_devops_item_content_by_commit;
            REPO_TOOLS.get_azure_devops_content_by_objectid;
            REPO_TOOLS.list_azure_devops_pull_request_threads;
            REPO_TOOLS.list_azure_devops_pull_request_comments_by_thread;
            REPO_TOOLS.create_pull_request;
            REPO_TOOLS.update_pull_request_status;
            REPO_TOOLS.update_pull_request_reviewers;
            REPO_TOOLS.list_pull_requests_by_repo;
            REPO_TOOLS.list_pull_requests_by_project;
            REPO_TOOLS.list_branches_by_repo;
            REPO_TOOLS.list_my_branches_by_repo;
            REPO_TOOLS.get_branch_by_name;
            REPO_TOOLS.reply_to_comment;
            REPO_TOOLS.resolve_comment;
            REPO_TOOLS.search_commits;
            REPO_TOOLS.list_pull_requests_by_commits ])
  /\ (t ∈ all_tool_names T -> t ∉ REPO_TOOLS.values -> t ∉ DEFAULT_ENABLED_TOOLS T ->
      t ∈ disabledTools T repo_override)
  /\ (SEARCH_TOOLS.search_azure_devops_code ∉ disabledTools T repo_override)
  /\ (CORE_list_azure_devops_projects T ∉ disabledTools T repo_override)
  /\ (CORE_get_azure_devops_identity_ids T ∉ disabledTools T repo_override).
Proof.
  assert (Hen : forall x, x ∈ REPO_TOOLS.values \/ x ∈ DEFAULT_ENABLED_TOOLS T ->
                          x ∉ disabledTools T repo_override).
  { intros x Hx. rewrite elem_of_disabledTools, repo_override_enabled. tauto. }
  split; [| split; [| split; [| split; [| split]]]].
  - intros Hall. rewrite elem_of_disabledTools, repo_override_enabled.
    destruct (decide (t ∈ REPO_TOOLS.values)), (decide (t ∈ DEFAULT_ENABLED_TOOLS T)); tauto.
  - intros server. unfold configureRepoTools. apply register_all_enabled.
    repeat (apply Forall_cons; split;
            [apply Hen; left; unfold REPO_TOOLS.values; rewrite !elem_of_cons; tauto |]).
    apply Forall_nil. exact I.
  - intros Hall Hr Hd. rewrite elem_of_disabledTools, repo_override_enabled. tauto.
  - apply Hen. right. unfold DEFAULT_ENABLED_TOOLS. rewrite !elem_of_cons. tauto.
  - apply Hen. right. apply list_elem_of_here.
  - apply Hen. right. apply list_elem_of_further, list_elem_of_here.
Qed.

(** C2, as stated, fails: [search_azure_devops_code] is a tool of the search
    category, not of the repo category, and the override leaves it enabled, so
    not every tool of the search category is disabled. *)
Lemma repo_override_leaves_search_code_enabled :
  ~ (forall t, t ∈ SEARCH_TOOLS.values -> t ∉ REPO_TOOLS.values ->
               t ∈ disabledTools sample_tables repo_override).
Proof.
  intros Hclaim.
  assert (Hd : SEARCH_TOOLS.search_azure_devops_code
               ∈ disabledTools sample_tables repo_override).
  { apply Hclaim.
    - apply list_elem_of_here.
    - apply (bool_decide_eq_false_1 _). vm_compute. reflexivity. }
  revert Hd. apply (bool_decide_eq_false_1 _). vm_compute. reflexivity.
Qed.

Example repo_override_registers_search_code :
  configureSearchTools [] (disabledTools sample_tables repo_override)
  = ["search_azure_devops_code"].
Proof. vm_compute. reflexivity. Qed.

(** *** The empty override *)





Example empty_override_registration :
  configureRepoTools [] (disabledTools sample_tables None)
  = [ "get_azure_devops_repositories"; "get_azure_devops_pull_request_by_id";
      "get_azure_devops_changes_by_commit"; "get_azure_devops_item_content_by_commit";
      "get_azure_devops_content_by_objectid"; "list_azure_devops_pull_request_threads";
      "list_azure_devops_pull_request_comments_by_thread" ]
  /\ configureSearchTools [] (disabledTools sample_tables None)
     = ["search_azure_devops_code"].
Proof. split; vm_compute; reflexivity. Qed.

(** ** Pull-request status translation *)

Lemma status_not_token (status : string) :
  status ∉ status_tokens ->
  String.eqb status "abandoned" = false /\ String.eqb status "active" = false
  /\ String.eqb status "all" = false /\ String.eqb status "completed" = false
  /\ String.eqb status "notSet" = false.
Proof.
  unfold status_tokens. rewrite !not_elem_of_cons. intros (H1 & H2 & H3 & H4 & H5 & _).
  repeat split; now apply String.eqb_neq.
Qed.

(** C3, as the code has it. The translation returns a code exactly on the
    five tokens: [Abandoned] = 2 for "abandoned", [Active] = 1 for "active",
    [All] = 4 for "all", [Completed] = 3 for "completed", [NotSet] = 0 for
    "notSet"; on every other string it throws the error
    "Unknown pull request status: " followed by the string. *)
Theorem pullRequestStatusStringToInt_total (status : string) :
  pullRequestStatusStringToInt "abandoned" = Return PullRequestStatus.Abandoned
  /\ pullRequestStatusStringToInt "active" = Return PullRequestStatus.Active
  /\ pullRequestStatusStringToInt "all" = Return PullRequestStatus.All
  /\ pullRequestStatusStringToInt "completed" = Return PullRequestStatus.Completed
  /\ pullRequestStatusStringToInt "notSet" = Return PullRequestStatus.NotSet
  /\ [PullRequestStatus.Abandoned; PullRequestStatus.Active; PullRequestStatus.All;
      PullRequestStatus.Completed; PullRequestStatus.NotSet] = [2; 1; 4; 3; 0]%Z
  /\ ((exists code, pullRequestStatusStringToInt status = Return code)
      <-> status ∈ status_tokens)
  /\ (status ∉ status_tokens ->
      pullRequestStatusStringToInt status
      = Throw (Error ("Unknown pull request status: " ++ status))).
Proof.
  do 6 (split; [reflexivity |]).
  assert (Hthrow : status ∉ status_tokens ->
            pullRequestStatusStringToInt status
            = Throw (Error ("Unknown pull request status: " ++ status))).
  { intros Hn. apply status_not_token in Hn as (H1 & H2 & H3 & H4 & H5).
    unfold pullRequestStatusStringToInt. now rewrite H1, H2, H3, H4, H5. }
  split; [| exact Hthrow].
  split.
  - intros [code Hcode]. destruct (decide (status ∈ status_tokens)) as [Hin | Hout];
      [exact Hin |]. rewrite (Hthrow Hout) in Hcode. discriminate.
  - unfold status_tokens. rewrite !elem_of_cons, elem_of_nil.
    intros [-> | [-> | [-> | [-> | [-> | []]]]]]; eexists; reflexivity.
Qed.

(** C3, as stated, fails: "active" is translated to 1, the code of
    [PullRequestStatus.Active], and not to 3, which is the code of
    [Completed]. *)
Lemma active_is_not_translated_to_3 :
  pullRequestStatusStringToInt "active" <> Return 3%Z.
Proof. discriminate. Qed.

Example status_examples :
  pullRequestStatusStringToInt "active" = Return 1%Z
  /\ pullRequestStatusStringToInt "completed" = Return 3%Z
  /\ pullRequestStatusStringToInt "merged"
     = Throw (Error "Unknown pull request status: merged")
  /\ pullRequestStatusStringToInt "Active"
     = Throw (Error "Unknown pull request status: Active").
Proof. repeat split; reflexivity. Qed.

(** ** Change-type projection *)

(** The reverse mapping finds exactly the members of the enumeration. *)
Lemma name_of_member (code : Z) (name : string) :
  VersionControlChangeType.name_of code = Some name
  <-> (name, code) ∈ VersionControlChangeType.members.
Proof.
  unfold VersionControlChangeType.name_of, VersionControlChangeType.members.
  split.
  - cbn [VersionControlChangeType.name_in].
    repeat (match goal with
            | |- context [(?v =? code)%Z] =>
                destruct (Z.eqb_spec v code) as [<- | _];
                [ intros [= <-]; rewrite !elem_of_cons; tauto |]
            end).
    discriminate.
  - rewrite !elem_of_cons, elem_of_nil.
    intros H. repeat (destruct H as [[= -> ->] | H]; [reflexivity |]). destruct H.
Qed.

(** C9, as the code has it. For every change, a change type that is a member
    of [VersionControlChangeType] other than 0 is projected to the name of the
    member (so 2 to "Edit"); an absent change type is projected to an absent
    one; and whenever the projection has a change type, it is the name of the
    member whose non-zero code the change carried. The other properties of the
    change are copied, the item through its own projection. *)
Theorem toGitChangeResult_changeType (change : GitChange) :
  (forall code name,
     gc_changeType change = Some code -> code <> 0%Z ->
     (name, code) ∈ VersionControlChangeType.members ->
     changeType (toGitChangeResult change) = Some name)
  /\ (gc_changeType change = Some VersionControlChangeType.Edit ->
      changeType (toGitChangeResult change) = Some "Edit")
  /\ (gc_changeType change = None -> changeType (toGitChangeResult change) = None)
  /\ (forall name,
        changeType (toGitChangeResult change) = Some name ->
        exists code, gc_changeType change = Some code /\ code <> 0%Z
                     /\ (name, code) ∈ VersionControlChangeType.members)
  /\ changeId (toGitChangeResult change) = gc_changeId change
  /\ originalPath (toGitChangeResult change) = gc_originalPath change
  /\ item (toGitChangeResult change) = option_map toGitItemResult (gc_item change).
Proof.
  assert (Hmember : forall code name,
            gc_changeType change = Some code -> code <> 0%Z ->
            (name, code) ∈ VersionControlChangeType.members ->
            changeType (toGitChangeResult change) = Some name).
  { intros code name Hc Hnz Hm. cbn. rewrite Hc. unfold truthy_number.
    destruct (Z.eqb_spec code 0) as [-> | _]; [contradiction |].
    now apply name_of_member. }
  split; [exact Hmember |].
  split.
  { intros Hc. apply (Hmember VersionControlChangeType.Edit); [exact Hc | discriminate |].
    unfold VersionControlChangeType.members. rewrite !elem_of_cons. tauto. }
  split; [intros Hc; cbn; now rewrite Hc |].
  split; [| repeat split].
  intros name. cbn. destruct (gc_changeType change) as [code |]; [| discriminate].
  unfold truthy_number. destruct (Z.eqb_spec code 0) as [-> | Hnz]; [discriminate |].
  intros Hn. exists code. repeat split; [exact Hnz | now apply name_of_member].
Qed.

(** C9, as stated, fails: 0 is the code of the member [None], and a change
    that carries it is projected to an absent change type, not to "None". *)
Lemma change_type_None_is_not_named :
  VersionControlChangeType.name_of VersionControlChangeType.None_ = Some "None"
  /\ changeType (toGitChangeResult (change_of_type (Some VersionControlChangeType.None_)))
     <> Some "None".
Proof. split; [reflexivity | discriminate]. Qed.

Example change_type_examples :
  changeType (toGitChangeResult (change_of_type (Some 1%Z))) = Some "Add"
  /\ changeType (toGitChangeResult (change_of_type (Some 2%Z))) = Some "Edit"
  /\ changeType (toGitChangeResult (change_of_type (Some 16%Z))) = Some "Delete"
  /\ changeType (toGitChangeResult (change_of_type (Some 10%Z))) = None
  /\ changeType (toGitChangeResult (change_of_type None)) = None.
Proof. repeat split; reflexivity. Qed.

(** C10. A change whose change type is present and is 0, the code of [None],
    is projected to an absent change type: the projection tests truthiness,
    and 0 is falsy like [undefined]. *)
Theorem toGitChangeResult_zero_changeType (change : GitChange) :
  gc_changeType change = Some 0%Z ->
  changeType (toGitChangeResult change) = None
  /\ changeType (toGitChangeResult change) <> Some "None"
  /\ changeType (toGitChangeResult change)
     = changeType (toGitChangeResult (change_of_type None)).
Proof.
  intros Hc. cbn. rewrite Hc. cbn. repeat split. discriminate.
Qed.

Lemma toGitChangeResult_zero_changeType_witness :
  changeType (toGitChangeResult (change_of_type (Some 0%Z))) = None
  /\ changeType (toGitChangeResult (change_of_type (Some 0%Z))) <> Some "None"
  /\ changeType (toGitChangeResult (change_of_type (Some 0%Z)))
     = changeType (toGitChangeResult (change_of_type None)).
Proof.
  apply (toGitChangeResult_zero_changeType (change_of_type (Some 0%Z))). reflexivity.
Defined.

(** ** Slicing *)

Section Slice.
Context {A : Type}.
Implicit Types l : list A.

(** For bounds that are not negative, [slice] is [take] after [drop]. *)
Lemma slice_take_drop l (skip top : Z) :
  (0 <= skip)%Z -> (0 <= top)%Z ->
  Js.slice l skip (skip + top) = take (Z.to_nat top) (drop (Z.to_nat skip) l).
Proof.
  intros Hskip Htop. unfold Js.slice.
  destruct (Z.ltb_spec skip 0) as [? | _]; [lia |].
  destruct (Z.ltb_spec (skip + top) 0) as [? | _]; [lia |].
  set (len := Z.of_nat (length l)).
  destruct (Z.le_gt_cases len skip) as [Hge | Hlt].
  - rewrite !drop_ge by (subst len; lia). now rewrite !take_nil.
  - replace (Z.to_nat (Z.min skip len)) with (Z.to_nat skip) by lia.
    destruct (Z.le_gt_cases (skip + top) len) as [Hin | Hout].
    + f_equal. lia.
    + rewrite !take_ge; [reflexivity | |]; rewrite length_drop; subst len; lia.
Qed.

Lemma slice_lookup l (skip top : Z) (i : nat) :
  (0 <= skip)%Z -> (0 <= top)%Z ->
  Js.slice l skip (skip + top) !! i
  = if (Z.of_nat i <? top)%Z then l !! (Z.to_nat skip + i)%nat else None.
Proof.
  intros Hskip Htop. rewrite slice_take_drop by assumption.
  destruct (Z.ltb_spec (Z.of_nat i) top) as [Hlt | Hge].
  - rewrite lookup_take_lt by lia. apply lookup_drop.
  - apply lookup_take_ge. lia.
Qed.

Lemma three_pages l :
  length l = 250%nat ->
  Js.slice l 0 (0 + 100) ++ Js.slice l 100 (100 + 100) ++ Js.slice l 200 (200 + 100) = l.
Proof.
  intros Hlen. rewrite !slice_take_drop by lia.
  change (Z.to_nat 0) with 0%nat. change (Z.to_nat 100) with 100%nat.
  change (Z.to_nat 200) with 200%nat. rewrite drop_0.
  rewrite (take_ge (drop 200 l)) by (rewrite length_drop; lia).
  replace (drop 200 l) with (drop 100 (drop 100 l)) by (now rewrite drop_drop).
  now rewrite !take_drop.
Qed.

Lemma page_beyond_the_end l (skip top : Z) :
  (Z.of_nat (length l) <= skip)%Z -> (0 <= top)%Z -> Js.slice l skip (skip + top) = [].
Proof.
  intros Hskip Htop. rewrite slice_take_drop by lia.
  rewrite drop_ge by lia. apply take_nil.
Qed.

End Slice.

(** C4. For every sequence and every [skip] and [top] that are not negative,
    the slice holds the elements at the offsets from [skip] up to, not
    including, [skip + top] (those of them that exist); for a sequence of 250
    elements the pages of 100 at 0, 100 and 200 concatenate to the sequence,
    and the page at 1000 is empty. *)
Theorem slice_is_the_page {A : Type} (l : list A) (skip top : Z) :
  (0 <= skip)%Z -> (0 <= top)%Z ->
  Js.slice l skip (skip + top) = take (Z.to_nat top) (drop (Z.to_nat skip) l)
  /\ (forall i : nat,
        Js.slice l skip (skip + top) !! i
        = if (Z.of_nat i <? top)%Z then l !! (Z.to_nat skip + i)%nat else None)
  /\ (length l = 250%nat ->
      Js.slice l 0 (0 + 100) ++ Js.slice l 100 (100 + 100) ++ Js.slice l 200 (200 + 100) = l
      /\ Js.slice l 1000 (1000 + 100) = []).
Proof.
  intros Hskip Htop. split; [now apply slice_take_drop |].
  split; [intros i; now apply slice_lookup |].
  intros Hlen. split; [now apply three_pages |].
  apply page_beyond_the_end; lia.
Qed.

Lemma slice_is_the_page_witness :
  Js.slice (seq 0 250) 100 (100 + 100) = seq 100 100
  /\ Js.slice (seq 0 250) 0 (0 + 100) ++ Js.slice (seq 0 250) 100 (100 + 100)
     ++ Js.slice (seq 0 250) 200 (200 + 100) = seq 0 250
  /\ Js.slice (seq 0 250) 1000 (1000 + 100) = [].
Proof.
  destruct (slice_is_the_page (seq 0 250) 100 100) as (Hpage & _ & Hpages); [lia | lia |].
  split; [rewrite Hpage; reflexivity |].
  apply Hpages. reflexivity.
Defined.

(** ** Sorting *)

Section SortProperties.
Context {A : Type} (cmp : A -> A -> Z).

Lemma insert_sorted_perm (x : A) (l : list A) : Js.insert_sorted cmp x l ≡ₚ x :: l.
Proof.
  induction l as [|y l IH]; simpl; [reflexivity |].
  destruct (0 <? cmp y x)%Z; [reflexivity |].
  rewrite IH. apply Permutation_swap.
Qed.

Lemma sort_from_perm (acc l : list A) :
  foldl (fun acc x => Js.insert_sorted cmp x acc) acc l ≡ₚ l ++ acc.
Proof.
  revert acc. induction l as [|x l IH]; intros acc; simpl; [reflexivity |].
  rewrite IH, insert_sorted_perm. now rewrite Permutation_middle.
Qed.

(** The sort rearranges its input. *)
Lemma sort_perm (l : list A) : Js.sort cmp l ≡ₚ l.
Proof. unfold Js.sort. rewrite sort_from_perm. now rewrite app_nil_r. Qed.

Lemma sort_length (l : list A) : length (Js.sort cmp l) = length l.
Proof. now rewrite sort_perm. Qed.

Hypothesis cmp_antisym : forall a b, (0 < cmp a b)%Z -> (cmp b a <= 0)%Z.
Hypothesis cmp_trans : forall a b c, in_order cmp a b -> in_order cmp b c -> in_order cmp a c.

Lemma insert_sorted_sorted (x : A) (l : list A) :
  StronglySorted (in_order cmp) l -> StronglySorted (in_order cmp) (Js.insert_sorted cmp x l).
Proof.
  induction 1 as [|y l Hs IH Hy]; simpl.
  - apply SSorted_cons; [apply SSorted_nil | apply Forall_nil; exact I].
  - destruct (Z.ltb_spec 0 (cmp y x)) as [Hlt | Hle].
    + assert (Hxy : in_order cmp x y) by (apply cmp_antisym; exact Hlt).
      apply SSorted_cons; [apply SSorted_cons; assumption |].
      apply Forall_cons. split; [exact Hxy |].
      eapply Forall_impl; [exact Hy |]. intros z Hz. now apply (cmp_trans x y z).
    + apply SSorted_cons; [exact IH |].
      rewrite insert_sorted_perm. apply Forall_cons. split; assumption.
Qed.

Lemma sort_from_sorted (acc l : list A) :
  StronglySorted (in_order cmp) acc ->
  StronglySorted (in_order cmp) (foldl (fun acc x => Js.insert_sorted cmp x acc) acc l).
Proof.
  revert acc. induction l as [|x l IH]; intros acc Hacc; simpl; [exact Hacc |].
  apply IH, insert_sorted_sorted, Hacc.
Qed.

(** For a consistent comparator the result is in order. *)
Lemma sort_sorted (l : list A) : StronglySorted (in_order cmp) (Js.sort cmp l).
Proof. apply sort_from_sorted, SSorted_nil. Qed.
End SortProperties.

(** ** Branch listing *)

Lemma strip_prefix_startsWith (p s : string) :
  strip_prefix p s
  = if Js.startsWith s p then Some (Js.drop (String.length p) s) else None.
Proof.
  revert s. induction p as [|a p IH]; intros s; [destruct s; reflexivity |].
  destruct s as [|b s]; [reflexivity |]. simpl.
  destruct (Ascii.eqb a b); [apply IH | reflexivity].
Qed.

Lemma strip_prefix_Some (p s x : string) :
  strip_prefix p s = Some x <-> s = (p ++ x)%string.
Proof.
  revert s. induction p as [|a p IH]; intros s; simpl.
  - split; [intros [= ->]; reflexivity | intros ->; reflexivity].
  - destruct s as [|b s]; [split; discriminate |].
    destruct (Ascii.eqb_spec a b) as [-> | Hne].
    + rewrite IH. split; [intros ->; reflexivity | intros [= ->]; reflexivity].
    + split; [discriminate | intros [= <- _]; contradiction].
Qed.

(** Replacing the first occurrence of a pattern that the string begins with
    replaces the beginning of the string. *)
Lemma replace_startsWith (s p r : string) :
  Js.startsWith s p = true -> Js.replace s p r = (r ++ Js.drop (String.length p) s)%string.
Proof.
  intros Hs. destruct s as [|c s].
  - destruct p; [reflexivity | discriminate Hs].
  - change (Js.replace (String c s) p r)
      with (if Js.startsWith (String c s) p
            then (r ++ Js.drop (String.length p) (String c s))%string
            else String c (Js.replace s p r)).
    now rewrite Hs.
Qed.

(** The three steps before the sort compute the branch names. *)
Lemma branch_pipeline (refs : list GitRef) :
  map (fun branch => Js.replace branch "refs/heads/" "")
    (List.filter (fun branch => Js.startsWith branch "refs/heads/")
       (flat_map
          (fun branch =>
             match ref_name branch with
             | Some name => if Js.truthy name then [name] else []
             | None => []
             end)
          refs))
  = branch_names refs.
Proof.
  unfold branch_names.
  induction refs as [|ref refs IH]; [reflexivity |].
  cbn [flat_map omap list_omap]. rewrite List.filter_app, map_app, IH. clear IH.
  destruct (ref_name ref) as [name |]; [| reflexivity].
  cbn [mbind option_bind]. rewrite strip_prefix_startsWith.
  destruct name as [|c name]; [reflexivity |].
  cbn [Js.truthy List.filter].
  destruct (Js.startsWith (String c name) "refs/heads/") eqn:Hs; [| reflexivity].
  cbn [map app]. now rewrite (replace_startsWith _ _ _ Hs).
Qed.

Lemma elem_of_branch_names (refs : list GitRef) (x : string) :
  x ∈ branch_names refs
  <-> exists ref, ref ∈ refs /\ ref_name ref = Some ("refs/heads/" ++ x)%string.
Proof.
  unfold branch_names. rewrite list_elem_of_omap.
  split; intros [ref [Hin Hname]]; exists ref; (split; [exact Hin |]).
  - destruct (ref_name ref) as [name |]; [| discriminate].
    cbn [mbind option_bind] in Hname. apply strip_prefix_Some in Hname. now subst.
  - rewrite Hname. cbn [mbind option_bind]. now apply strip_prefix_Some.
Qed.

Section BranchListing.
Variable localeCompare : string -> string -> Z.

Lemma branchesFilterOutIrrelevantProperties_eq (refs : list GitRef) (top : Z) :
  branchesFilterOutIrrelevantProperties localeCompare (Some refs) top
  = Some (Js.slice (sorted_branch_names localeCompare refs) 0 top).
Proof.
  unfold branchesFilterOutIrrelevantProperties, sorted_branch_names.
  cbn [option_map]. now rewrite branch_pipeline.
Qed.

Hypothesis localeCompare_antisym :
  forall a b, (0 < localeCompare a b)%Z -> (localeCompare b a <= 0)%Z.
Hypothesis localeCompare_trans :
  forall a b c, (localeCompare a b <= 0)%Z -> (localeCompare b c <= 0)%Z ->
                (localeCompare a c <= 0)%Z.

(** C7. For every list of refs and every [top] that is not negative, the
    listing is the first [top] of the sorted branch names, where the branch
    names are the names under ["refs/heads/"] with that prefix removed (a ref
    with another name, or with none, contributes nothing), and the sorted
    names are a rearrangement of them in descending order of the collation;
    for the refs ["refs/heads/main"], ["refs/heads/feature/x"] and
    ["refs/tags/v1"] with [top] = 10, in a collation that has "feature/x" no
    later than "main", the listing is ["main"; "feature/x"]. *)
Theorem branch_listing (refs : list GitRef) (top : Z) :
  (0 <= top)%Z ->
  branchesFilterOutIrrelevantProperties localeCompare (Some refs) top
  = Some (take (Z.to_nat top) (sorted_branch_names localeCompare refs))
  /\ sorted_branch_names localeCompare refs ≡ₚ branch_names refs
  /\ (forall x, x ∈ sorted_branch_names localeCompare refs
                <-> exists ref, ref ∈ refs
                                /\ ref_name ref = Some ("refs/heads/" ++ x)%string)
  /\ StronglySorted (fun a b => (localeCompare b a <= 0)%Z)
       (sorted_branch_names localeCompare refs)
  /\ ((localeCompare "feature/x" "main" <= 0)%Z ->
      branchesFilterOutIrrelevantProperties localeCompare (Some example_refs) 10
      = Some ["main"; "feature/x"]).
Proof.
  intros Htop.
  split; [| split; [| split; [| split]]].
  - rewrite branchesFilterOutIrrelevantProperties_eq.
    rewrite <- (Z.add_0_l top) at 1. rewrite slice_take_drop by lia.
    reflexivity.
  - apply sort_perm.
  - intros x. unfold sorted_branch_names. rewrite sort_perm.
    apply elem_of_branch_names.
  - apply (sort_sorted (fun a b => localeCompare b a)).
    + intros a b. apply localeCompare_antisym.
    + unfold in_order. intros a b c Hab Hbc. now apply (localeCompare_trans c b a).
  - intros Hfm. rewrite branchesFilterOutIrrelevantProperties_eq.
    unfold sorted_branch_names. change (branch_names example_refs) with ["main"; "feature/x"].
    unfold Js.sort. cbn [foldl Js.insert_sorted].
    destruct (Z.ltb_spec 0 (localeCompare "feature/x" "main")) as [? | _]; [lia |].
    reflexivity.
Qed.
End BranchListing.

Lemma codeUnitCompare_flip (a b : string) : codeUnitCompare b a = (- codeUnitCompare a b)%Z.
Proof.
  revert b. induction a as [|x a IH]; intros [|y b]; simpl; try reflexivity.
  rewrite (Nat.compare_antisym (nat_of_ascii x) (nat_of_ascii y)).
  destruct (nat_of_ascii x ?= nat_of_ascii y)%nat; simpl; [apply IH | reflexivity | reflexivity].
Qed.

Lemma codeUnitCompare_trans (a b c : string) :
  (codeUnitCompare a b <= 0)%Z -> (codeUnitCompare b c <= 0)%Z -> (codeUnitCompare a c <= 0)%Z.
Proof.
  revert b c. induction a as [|x a IH]; intros [|y b] [|z c]; simpl; try lia.
  destruct (Nat.compare_spec (nat_of_ascii x) (nat_of_ascii y)) as [Hxy | Hxy | Hxy];
    destruct (Nat.compare_spec (nat_of_ascii y) (nat_of_ascii z)) as [Hyz | Hyz | Hyz];
    destruct (Nat.compare_spec (nat_of_ascii x) (nat_of_ascii z)) as [Hxz | Hxz | Hxz];
    try lia.
  apply IH.
Qed.

Lemma branch_listing_witness :
  branchesFilterOutIrrelevantProperties codeUnitCompare (Some example_refs) 10
  = Some ["main"; "feature/x"].
Proof.
  destruct (branch_listing codeUnitCompare) with (refs := example_refs) (top := 10%Z)
    as (_ & _ & _ & _ & Hex).
  - intros a b Hab. rewrite codeUnitCompare_flip. lia.
  - apply codeUnitCompare_trans.
  - lia.
  - apply Hex. vm_compute. discriminate.
Defined.

Example branch_listing_examples :
  branchesFilterOutIrrelevantProperties codeUnitCompare (Some example_refs) 1 = Some ["main"]
  /\ branchesFilterOutIrrelevantProperties codeUnitCompare
       (Some [ref_named "refs/heads/a"; ref_named "refs/heads/c"; ref_named "refs/heads/b";
              ref_named "refs/pull/7/merge"; ref_named "zrefs/heads/q";
              {| ref_name := None; ref_objectId := Some "0f3" |}]) 100
     = Some ["c"; "b"; "a"]
  /\ branchesFilterOutIrrelevantProperties codeUnitCompare None 10 = None.
Proof. repeat split; vm_compute; reflexivity. Qed.

(** ** Handlers *)

Section HandlerProperties.
Variable localeCompare : string -> string -> Z.
Context {stringify_repositories : Stringify (list RepositoryResult)}
        {stringify_pull_request : Stringify PullRequestResult}
        {stringify_names : Stringify (option (list string))}.
Variable connectionProvider : Completion WebApi.
Variables (connection : WebApi) (gitApi : GitApi).
Hypothesis connected : connectionProvider = Return connection.
Hypothesis has_git : getGitApi connection = Return gitApi.

Lemma getRepositoriesResult_cases (project : string) (repositoryNameOrId : option string)
    (repositories : option (list GitRepository)) :
  getRepositories gitApi project = Return repositories ->
  getRepositoriesResult connectionProvider project repositoryNameOrId
  = match filterRepositories repositoryNameOrId repositories with
    | Some (r :: rs) => Return (map toRepositoryResult (r :: rs))
    | _ => Throw (Error ("Repository " ++ template_opt repositoryNameOrId
                         ++ " not found in project " ++ project))
    end.
Proof.
  intros Hrepos. unfold getRepositoriesResult.
  rewrite connected. cbn [mbind Completion_bind]. rewrite has_git. cbn [mbind Completion_bind].
  rewrite Hrepos. cbn [mbind Completion_bind].
  destruct (filterRepositories repositoryNameOrId repositories) as [[|r rs] |]; reflexivity.
Qed.


Lemma or_else_truthy (a : option string) (b : string) :
  Js.truthy b = true -> Js.truthy (Js.or_else a b) = true.
Proof.
  intros Hb. unfold Js.or_else. destruct a as [s |]; [| exact Hb].
  destruct (Js.truthy s) eqn:Hs; assumption.
Qed.


(** The handler always returns an envelope; one without the error flag holds
    the serialised composite, for which every fetch has returned. *)
Lemma pull_request_envelope_cases (repositoryId : string) (pullRequestId : Z) :
  (exists e,
     getPullRequestResult connectionProvider repositoryId pullRequestId = Throw e
     /\ get_azure_devops_pull_request_by_id connectionProvider repositoryId pullRequestId
        = Return {| content := [Js.or_else (message e) "Failed to get pull request."];
                    isError := Some true |})
  \/ (exists pullRequest commits,
        getPullRequest gitApi repositoryId pullRequestId = Return (Some pullRequest)
        /\ getPullRequestCommits gitApi repositoryId pullRequestId = Return commits
        /\ match commits with
           | Some (first :: rest) =>
               exists diffs,
                 getCommitDiffs gitApi repositoryId (baseVersionDescriptorOf pullRequest)
                   (targetVersionDescriptorOf first) = Return diffs
                 /\ get_azure_devops_pull_request_by_id connectionProvider repositoryId
                      pullRequestId
                    = Return {| content :=
                                  [JSON_stringify
                                     (set_pullRequestChanges
                                        (set_commits (toPullRequestResult pullRequest)
                                           (map toGitCommitResult (first :: rest)))
                                        (option_map toGitCommitDiffsResult diffs))];
                                isError := None |}
           | _ =>
               get_azure_devops_pull_request_by_id connectionProvider repositoryId
                 pullRequestId
               = Return {| content :=
                             [JSON_stringify (set_commits (toPullRequestResult pullRequest) [])];
                           isError := None |}
           end).
Proof.
  unfold get_azure_devops_pull_request_by_id, getPullRequestResult.
  rewrite connected. cbn [mbind Completion_bind]. rewrite has_git. cbn [mbind Completion_bind].
  destruct (getPullRequest gitApi repositoryId pullRequestId) as [[pullRequest |] | e];
    cbn [mbind Completion_bind]; [| left; eexists; split; reflexivity ..].
  destruct (getPullRequestCommits gitApi repositoryId pullRequestId) as [commits | e] eqn:Hc;
    cbn [mbind Completion_bind]; [| left; eexists; split; reflexivity].
  destruct commits as [[|first rest] |].
  - right. exists pullRequest, (Some []). repeat split; reflexivity.
  - destruct (getCommitDiffs gitApi repositoryId (baseVersionDescriptorOf pullRequest)
                (targetVersionDescriptorOf first)) as [diffs | e] eqn:Hd.
    + right. exists pullRequest, (Some (first :: rest)).
      split; [reflexivity |]. split; [reflexivity |].
      exists diffs. split; [exact Hd | reflexivity].
    + left. exists e. split; reflexivity.
  - right. exists pullRequest, None. repeat split; reflexivity.
Qed.
End HandlerProperties.

(** *** The handlers on the sample upstream *)




(** A branch that is not there is reported in the text of an envelope that
    has no error flag. *)
Example branch_not_found_is_not_flagged :
  get_branch_by_name (stringify_ref := opaque_json) sample_connection "repo" "release"
  = Return {| content := ["Branch release not found in repository repo"]; isError := None |}
  /\ get_branch_by_name (stringify_ref := opaque_json) sample_connection "repo" "main"
     = Return {| content := ["<json>"]; isError := None |}.
Proof. split; vm_compute; reflexivity. Qed.

(** The threads are paged in ascending order of their ids. *)
Example thread_paging :
  Js.slice (Js.sort compareThreadIds [thread_with_id 2; thread_with_id 1; thread_with_id 3])
    1 (1 + 100)
  = [thread_with_id 2; thread_with_id 3].
Proof. reflexivity. Qed.

Lemma StronglySorted_weaken {A} (R S : A -> A -> Prop) (l : list A) :
  (forall a b, R a b -> S a b) -> StronglySorted R l -> StronglySorted S l.
Proof.
  intros HRS. induction 1 as [|x l Hl IH Hx]; constructor; [exact IH |].
  eapply Forall_impl; [exact Hx |]. intros y. apply HRS.
Qed.

Lemma threads_sorted_by_id (threads : list GitPullRequestCommentThread) :
  StronglySorted (fun a b => (default 0 (thread_id a) <= default 0 (thread_id b))%Z)
    (Js.sort compareThreadIds threads)
  /\ Js.sort compareThreadIds threads ≡ₚ threads.
Proof.
  split; [| apply sort_perm].
  apply (StronglySorted_weaken (in_order compareThreadIds)).
  - unfold in_order, compareThreadIds. intros a b. lia.
  - apply sort_sorted.
    + unfold compareThreadIds. intros a b. lia.
    + unfold in_order, compareThreadIds. intros a b c. lia.
Qed.

(** ** More on the gate: composition and white space *)

Lemma split_nonempty (sep : ascii) (s : string) : Js.split sep s <> [].
Proof.
  destruct s as [|c s]; simpl; [discriminate |].
  destruct (Ascii.eqb c sep); [discriminate |].
  destruct (Js.split sep s); discriminate.
Qed.

(** Splitting distributes over a separator between two strings. *)
Lemma split_app (sep : ascii) (a b : string) :
  Js.split sep (a ++ String sep b)%string = Js.split sep a ++ Js.split sep b.
Proof.
  induction a as [|c a IH]; simpl.
  - now rewrite Ascii.eqb_refl.
  - destruct (Ascii.eqb c sep); [now rewrite IH |].
    rewrite IH. pose proof (split_nonempty sep a) as Hne.
    destruct (Js.split sep a) as [|w ws]; [contradiction | reflexivity].
Qed.

Lemma or_else_empty (s : string) : Js.or_else (Some s) "" = s.
Proof. destruct s; reflexivity. Qed.

Lemma override_tokens_Some (s : string) : override_tokens (Some s) = Js.split "," s.
Proof. unfold override_tokens. now rewrite or_else_empty. Qed.

Lemma override_tokens_app (a b : string) :
  override_tokens (Some (a ++ "," ++ b)%string)
  = override_tokens (Some a) ++ override_tokens (Some b).
Proof. rewrite !override_tokens_Some. apply split_app. Qed.

Section GateComposition.
Variable T : FamilyTables.

Lemma disabledTools_app (a b : string) :
  disabledTools T (Some (a ++ "," ++ b)%string)
  = disabledTools T (Some a) ∩ disabledTools T (Some b).
Proof.
  apply set_eq. intros t.
  rewrite elem_of_intersection, !elem_of_disabledTools.
  unfold enabled_names. rewrite override_tokens_app, flat_map_app, !elem_of_app.
  tauto.
Qed.

(** X1. Two overrides joined by a comma enable what either enables: the
    disabled set of the joined override is the intersection of the two
    disabled sets. So the order of the parts does not matter, repeating an
    override changes nothing, and a longer override never disables more. *)
Theorem override_join (a b : string) :
  disabledTools T (Some (a ++ "," ++ b)%string)
  = disabledTools T (Some a) ∩ disabledTools T (Some b)
  /\ disabledTools T (Some (a ++ "," ++ b)%string)
     = disabledTools T (Some (b ++ "," ++ a)%string)
  /\ disabledTools T (Some (a ++ "," ++ a)%string) = disabledTools T (Some a)
  /\ disabledTools T (Some (a ++ "," ++ b)%string) ⊆ disabledTools T (Some a).
Proof.
  rewrite !disabledTools_app.
  split; [reflexivity |].
  split; [apply set_eq; intros t; rewrite !elem_of_intersection; tauto |].
  split; [apply set_eq; intros t; rewrite !elem_of_intersection; tauto |].
  intros t. rewrite elem_of_intersection. tauto.
Qed.
End GateComposition.

(** *** White space around the tokens *)

Lemma white_space_is_no_comma (c : ascii) :
  Js.isWhiteSpace c = true -> Ascii.eqb c "," = false.
Proof.
  intros Hc. destruct (Ascii.eqb_spec c ",") as [-> | _]; [discriminate Hc | reflexivity].
Qed.

Lemma trimStart_blank_app (w s : string) :
  isBlank w = true -> Js.trimStart (w ++ s) = Js.trimStart s.
Proof.
  induction w as [|c w IH]; simpl; [reflexivity |].
  intros [Hc Hw]%andb_prop. rewrite Hc. now apply IH.
Qed.

Lemma trimStart_blank (w : string) : isBlank w = true -> Js.trimStart w = "".
Proof.
  induction w as [|c w IH]; simpl; [reflexivity |].
  intros [Hc Hw]%andb_prop. rewrite Hc. now apply IH.
Qed.

Lemma trimEnd_blank (w : string) : isBlank w = true -> Js.trimEnd w = "".
Proof.
  induction w as [|c w IH]; simpl; [reflexivity |].
  intros [Hc Hw]%andb_prop. now rewrite (IH Hw), Hc.
Qed.

Lemma trimEnd_app_blank (s w : string) :
  isBlank w = true -> Js.trimEnd (s ++ w) = Js.trimEnd s.
Proof.
  intros Hw. induction s as [|c s IH]; simpl; [now apply trimEnd_blank |].
  now rewrite IH.
Qed.

Lemma trimStart_app_blank (s w : string) :
  isBlank w = true ->
  Js.trimStart (s ++ w) = if isBlank s then "" else (Js.trimStart s ++ w)%string.
Proof.
  intros Hw. induction s as [|c s IH]; simpl; [now apply trimStart_blank |].
  destruct (Js.isWhiteSpace c); simpl; [exact IH | reflexivity].
Qed.

(** [trim] does not see white space added at either end. *)
Lemma trim_padded (w1 w2 s : string) :
  isBlank w1 = true -> isBlank w2 = true -> Js.trim (w1 ++ s ++ w2) = Js.trim s.
Proof.
  intros H1 H2. unfold Js.trim.
  rewrite (trimStart_blank_app _ _ H1), (trimStart_app_blank _ _ H2).
  destruct (isBlank s) eqn:Hs.
  - now rewrite (trimStart_blank _ Hs).
  - now apply trimEnd_app_blank.
Qed.

(** White space in front of a string goes to its first token. *)
Lemma split_blank_app (w s : string) :
  isBlank w = true ->
  exists first rest,
    Js.split "," s = first :: rest
    /\ Js.split "," (w ++ s) = (w ++ first)%string :: rest.
Proof.
  intros Hw. induction w as [|c w IH].
  - change ("" ++ s)%string with s.
    pose proof (split_nonempty "," s) as Hne.
    destruct (Js.split "," s) as [|first rest]; [contradiction |].
    exists first, rest. split; reflexivity.
  - apply andb_prop in Hw as [Hc Hw]. destruct (IH Hw) as (first & rest & Hs & Hws).
    change (String c w ++ s)%string with (String c (w ++ s)). cbn [Js.split].
    rewrite (white_space_is_no_comma c Hc), Hws.
    exists first, rest. split; [exact Hs | reflexivity].
Qed.

Lemma split_blank (w : string) : isBlank w = true -> Js.split "," w = [w].
Proof.
  induction w as [|c w IH]; simpl; [reflexivity |].
  intros [Hc Hw]%andb_prop. now rewrite (white_space_is_no_comma c Hc), (IH Hw).
Qed.

Lemma append_empty_r (s : string) : (s ++ "")%string = s.
Proof.
  induction s as [|c s IH]; [reflexivity |].
  change (String c s ++ "")%string with (String c (s ++ "")). now rewrite IH.
Qed.

(** White space behind a string goes to its last token. *)
Lemma split_app_blank (s w : string) :
  isBlank w = true ->
  exists init last,
    Js.split "," s = init ++ [last]
    /\ Js.split "," (s ++ w) = init ++ [(last ++ w)%string].
Proof.
  intros Hw. induction s as [|c s IH].
  - exists [], "". split; [reflexivity |].
    change ("" ++ w)%string with w. cbn [app]. now apply split_blank.
  - destruct IH as (init & last & Hs & Hsw).
    change (String c s ++ w)%string with (String c (s ++ w)). cbn [Js.split].
    destruct (Ascii.eqb c ",").
    + exists ("" :: init), last. rewrite Hs, Hsw. split; reflexivity.
    + rewrite Hs, Hsw. destruct init as [|i init]; cbn [app].
      * exists [], (String c last). split; reflexivity.
      * exists (String c i :: init), last. split; reflexivity.
Qed.

Lemma trimmed_tokens_padded (w1 w2 s : string) :
  isBlank w1 = true -> isBlank w2 = true ->
  map Js.trim (Js.split "," (w1 ++ s ++ w2)) = map Js.trim (Js.split "," s).
Proof.
  intros H1 H2.
  destruct (split_app_blank s w2 H2) as (init & last & Hs & Hsw).
  destruct (split_blank_app w1 (s ++ w2) H1) as (first & rest & Hf & Hwf).
  rewrite Hwf, Hs. rewrite Hsw in Hf.
  destruct init as [|i init]; cbn [app] in *.
  - injection Hf as <- <-. cbn [map]. f_equal. now apply trim_padded.
  - injection Hf as <- <-. rewrite !map_cons, !map_app. cbn [map].
    f_equal; [| f_equal; f_equal].
    + rewrite <- (append_empty_r i) at 1. apply (trim_padded w1 "" i H1 eq_refl).
    + apply (trim_padded "" w2 last eq_refl H2).
Qed.

Section GateWhiteSpace.
Variable T : FamilyTables.

Lemma resolved_tokens_by_trim (tokens tokens' : list string) :
  map Js.trim tokens = map Js.trim tokens' ->
  flat_map (resolve_token T) tokens = flat_map (resolve_token T) tokens'.
Proof.
  revert tokens'. induction tokens as [|t ts IH]; intros [|t' ts']; try discriminate.
  - reflexivity.
  - cbn [map flat_map]. intros [= Ht Hts]. rewrite (IH ts' Hts).
    unfold resolve_token. now rewrite Ht.
Qed.

Lemma disabledTools_padded (w1 w2 s : string) :
  isBlank w1 = true -> isBlank w2 = true ->
  disabledTools T (Some (w1 ++ s ++ w2)%string) = disabledTools T (Some s).
Proof.
  intros H1 H2. unfold disabledTools, enabled_names.
  rewrite !override_tokens_Some.
  now rewrite (resolved_tokens_by_trim _ _ (trimmed_tokens_padded w1 w2 s H1 H2)).
Qed.

(** X2. White space at either end of an override, and on either side of a
    comma in it, has no effect on the disabled set. *)
Theorem override_white_space (w1 w2 a b : string) :
  isBlank w1 = true -> isBlank w2 = true ->
  disabledTools T (Some (w1 ++ a ++ w2)%string) = disabledTools T (Some a)
  /\ disabledTools T (Some ((a ++ w1) ++ "," ++ (w2 ++ b))%string)
     = disabledTools T (Some (a ++ "," ++ b)%string).
Proof.
  intros H1 H2. split; [now apply disabledTools_padded |].
  rewrite !disabledTools_app. f_equal.
  - apply (disabledTools_padded "" w1 a eq_refl H1).
  - rewrite <- (append_empty_r b) at 1.
    apply (disabledTools_padded w2 "" b H2 eq_refl).
Qed.
End GateWhiteSpace.

Lemma override_white_space_witness :
  disabledTools sample_tables (Some (" " ++ "category_repo" ++ "  ")%string)
  = disabledTools sample_tables (Some "category_repo")
  /\ disabledTools sample_tables
       (Some (("category_repo" ++ " ") ++ "," ++ ("  " ++ "category_wiki"))%string)
     = disabledTools sample_tables (Some ("category_repo" ++ "," ++ "category_wiki")%string).
Proof.
  apply (override_white_space sample_tables " " "  " "category_repo" "category_wiki");
    reflexivity.
Defined.

(** ** The deny-list variant *)

Section DenyListProperties.
Variable T : FamilyTables.

Lemma elem_of_disabledTools_denylist env t :
  t ∈ disabledTools_denylist T env
  <-> exists token, token ∈ override_tokens env /\ t ∈ resolve_token_denylist T token.
Proof.
  unfold disabledTools_denylist. rewrite elem_of_list_to_set. apply elem_of_flat_map.
Qed.

(** A token that is not the name of the core or of the search category
    resolves in the same way in the two variants. *)
Lemma resolve_token_denylist_eq (token : string) :
  Js.trim token <> "category_core" -> Js.trim token <> "category_search" ->
  resolve_token_denylist T token = resolve_token T token.
Proof.
  intros Hcore Hsearch. unfold resolve_token_denylist, resolve_token.
  unfold TOOLS_CATEGORY_MAP_denylist, TOOLS_CATEGORY_MAP. cbn [Map_get].
  rewrite (proj2 (String.eqb_neq "category_core" (Js.trim token)))
    by (intros E; apply Hcore; now rewrite <- E).
  rewrite (proj2 (String.eqb_neq "category_search" (Js.trim token)))
    by (intros E; apply Hsearch; now rewrite <- E).
  reflexivity.
Qed.

Lemma denylist_single_name (env : option string) (name : string) :
  override_tokens env = [name] -> resolve_token_denylist T name = [name] ->
  disabledTools_denylist T env = {[ name ]}.
Proof.
  intros Htok Hres. apply set_eq. intros x.
  rewrite elem_of_disabledTools_denylist, Htok, elem_of_singleton.
  split.
  - intros (token & ->%list_elem_of_singleton & Hx). rewrite Hres in Hx.
    now apply list_elem_of_singleton in Hx.
  - intros ->. exists name. split; [apply list_elem_of_here |].
    rewrite Hres. apply list_elem_of_here.
Qed.

(** X3. The two variants of the gate mirror each other. For an override
    that names neither [category_core] nor [category_search], a tool of the
    catalogue is enabled by the allow-list variant exactly when it is
    default-enabled or the deny-list variant, given the same string,
    disables it. In the deny-list variant an unset or empty override
    disables only the empty name, and the token [category_search] is taken
    for a tool name. *)
Theorem denylist_mirrors_allowlist (s t : string) :
  (forall token, token ∈ Js.split "," s ->
     Js.trim token <> "category_core" /\ Js.trim token <> "category_search") ->
  (t ∈ all_tool_names T ->
     (t ∉ disabledTools T (Some s)
      <-> t ∈ DEFAULT_ENABLED_TOOLS T \/ t ∈ disabledTools_denylist T (Some s)))
  /\ disabledTools_denylist T None = {[ "" ]}
  /\ disabledTools_denylist T (Some "") = {[ "" ]}
  /\ disabledTools_denylist T (Some "category_search") = {[ "category_search" ]}.
Proof.
  intros Htokens.
  split; [| repeat split; now apply denylist_single_name].
  intros Hall. rewrite elem_of_disabledTools, elem_of_disabledTools_denylist.
  unfold enabled_names. rewrite elem_of_app, elem_of_flat_map.
  assert (Hsame : (exists token, token ∈ override_tokens (Some s)
                                 /\ t ∈ resolve_token T token)
                  <-> (exists token, token ∈ override_tokens (Some s)
                                     /\ t ∈ resolve_token_denylist T token)).
  { split; intros (token & Htok & Ht); exists token; (split; [exact Htok |]);
      rewrite override_tokens_Some in Htok; destruct (Htokens token Htok) as [Hc Hs].
    - now rewrite resolve_token_denylist_eq.
    - now rewrite <- resolve_token_denylist_eq. }
  rewrite <- Hsame.
  destruct (decide (t ∈ DEFAULT_ENABLED_TOOLS T)) as [Hd | Hd]; [tauto |].
  split; [| tauto]. intros Hn.
  destruct (decide (t ∈ flat_map (resolve_token T) (override_tokens (Some s)))) as [Hr | Hr].
  - right. now apply elem_of_flat_map.
  - exfalso. apply Hn. split; [exact Hall |]. rewrite elem_of_flat_map in Hr. tauto.
Qed.
End DenyListProperties.

Lemma denylist_mirrors_allowlist_witness :
  "wit_get_work_item" ∉ disabledTools sample_tables (Some "category_repo, wit_get_work_item")
  <-> "wit_get_work_item" ∈ DEFAULT_ENABLED_TOOLS sample_tables
      \/ "wit_get_work_item"
         ∈ disabledTools_denylist sample_tables (Some "category_repo, wit_get_work_item").
Proof.
  apply (denylist_mirrors_allowlist sample_tables "category_repo, wit_get_work_item").
  - intros token. change (Js.split "," "category_repo, wit_get_work_item")
      with ["category_repo"; " wit_get_work_item"].
    rewrite !elem_of_cons, elem_of_nil. intros [-> | [-> | []]]; split; discriminate.
  - apply (bool_decide_unpack _). vm_compute. exact I.
Defined.

(** ** More on the handlers of [configureRepoTools] *)

Section HandlerShapes.
Variable localeCompare : string -> string -> Z.
Context {stringify_repositories : Stringify (list RepositoryResult)}
        {stringify_pull_request : Stringify PullRequestResult}
        {stringify_ref : Stringify GitRef}
        {stringify_names : Stringify (option (list string))}
        {stringify_threads : Stringify (option (list GitPullRequestCommentThread))}.
Variable connectionProvider : Completion WebApi.


(** What a handler without [try] does with its upstream call. *)
Lemma unguarded_call {A} (call : GitApi -> Completion A) (k : A -> Completion ToolResult) :
  (connection ← connectionProvider; gitApi ← getGitApi connection; a ← call gitApi; k a)
  = match connectionProvider with
    | Throw e => Throw e
    | Return connection =>
        match getGitApi connection with
        | Throw e => Throw e
        | Return gitApi =>
            match call gitApi with
            | Throw e => Throw e
            | Return a => k a
            end
        end
    end.
Proof.
  destruct connectionProvider as [connection | e]; [| reflexivity].
  cbn [mbind Completion_bind]. destruct (getGitApi connection) as [gitApi | e]; reflexivity.
Qed.

(** X5. The thread listing, the branch listing and the branch lookup have no
    [try]: a failure of the connection provider, of [getGitApi] or of the
    upstream call rejects the handler with that failure, and an envelope they
    return never has the error flag. *)
Theorem unguarded_handlers_propagate (repositoryId branchName : string) (pullRequestId : Z)
    (project : option string) (iteration baseIteration : option Z) (top skip : Z) :
  let threads :=
    list_azure_devops_pull_request_threads connectionProvider repositoryId pullRequestId
      project iteration baseIteration top skip in
  let branches := list_branches_by_repo localeCompare connectionProvider repositoryId top in
  let branch := get_branch_by_name connectionProvider repositoryId branchName in
  (forall r, threads = Return r \/ branches = Return r \/ branch = Return r ->
             isError r = None)
  /\ (forall e, connectionProvider = Throw e ->
                threads = Throw e /\ branches = Throw e /\ branch = Throw e)
  /\ (forall connection e,
        connectionProvider = Return connection -> getGitApi connection = Throw e ->
        threads = Throw e /\ branches = Throw e /\ branch = Throw e)
  /\ (forall connection gitApi e,
        connectionProvider = Return connection -> getGitApi connection = Return gitApi ->
        (getThreads gitApi repositoryId pullRequestId project iteration baseIteration
         = Throw e -> threads = Throw e)
        /\ (getRefs gitApi repositoryId None = Throw e ->
            branches = Throw e /\ branch = Throw e)).
Proof.
  cbv zeta.
  unfold list_azure_devops_pull_request_threads, list_branches_by_repo, get_branch_by_name.
  rewrite (unguarded_call (fun gitApi =>
             getThreads gitApi repositoryId pullRequestId project iteration baseIteration)).
  rewrite !(unguarded_call (fun gitApi => getRefs gitApi repositoryId None)).
  split; [| split; [| split]].
  - intros r. destruct connectionProvider as [connection | e]; [| intuition discriminate].
    destruct (getGitApi connection) as [gitApi | e]; [| intuition discriminate].
    intros [H | [H | H]].
    + destruct (getThreads gitApi _ _ _ _ _); [| discriminate].
      injection H as <-. reflexivity.
    + destruct (getRefs gitApi _ _); [| discriminate]. injection H as <-. reflexivity.
    + destruct (getRefs gitApi _ _) as [refs |]; [| discriminate].
      destruct (refs ≫= _); injection H as <-; reflexivity.
  - intros e ->. repeat split.
  - intros connection e -> ->. repeat split.
  - intros connection gitApi e -> ->. split; [intros ->; reflexivity |].
    intros ->. split; reflexivity.
Qed.
End HandlerShapes.

Section BranchLookup.
Context {stringify_ref : Stringify GitRef}.
Variable connectionProvider : Completion WebApi.
Variables (connection : WebApi) (gitApi : GitApi).
Hypothesis connected : connectionProvider = Return connection.
Hypothesis has_git : getGitApi connection = Return gitApi.

Lemma find_first {A} (p : A -> bool) (l : list A) :
  match List.find p l with
  | Some x => exists before after,
                l = before ++ x :: after /\ p x = true /\ Forall (fun y => p y = false) before
  | None => Forall (fun y => p y = false) l
  end.
Proof.
  induction l as [|y l IH]; simpl; [apply Forall_nil; exact I |].
  destruct (p y) eqn:Hy.
  - exists [], l. repeat split; [exact Hy | apply Forall_nil; exact I].
  - destruct (List.find p l) as [x |].
    + destruct IH as (before & after & -> & Hx & Hb).
      exists (y :: before), after. repeat split; [exact Hx |].
      apply Forall_cons. split; assumption.
    + apply Forall_cons. split; assumption.
Qed.

(** X6. The branch lookup compares the whole name, case and all, with
    ["refs/heads/"] followed by the branch name. When the refs are missing or
    no ref bears that name, the result is the text "Branch <name> not found in
    repository <id>"; otherwise it is the serialisation of the first ref of
    the upstream list that bears the name. *)
Theorem get_branch_by_name_finds_the_first (repositoryId branchName : string)
    (refs : option (list GitRef)) :
  getRefs gitApi repositoryId None = Return refs ->
  let wanted := Some ("refs/heads/" ++ branchName)%string in
  let not_found :=
    Return {| content := [("Branch " ++ branchName ++ " not found in repository "
                           ++ repositoryId)%string];
              isError := None |} in
  (refs = None -> get_branch_by_name connectionProvider repositoryId branchName = not_found)
  /\ (forall l, refs = Some l -> Forall (fun ref => ref_name ref <> wanted) l ->
        get_branch_by_name connectionProvider repositoryId branchName = not_found)
  /\ (forall before branch after,
        refs = Some (before ++ branch :: after) ->
        ref_name branch = wanted ->
        Forall (fun ref => ref_name ref <> wanted) before ->
        get_branch_by_name connectionProvider repositoryId branchName
        = Return {| content := [JSON_stringify branch]; isError := None |}).
Proof.
  intros Hrefs. cbv zeta. unfold get_branch_by_name.
  rewrite connected. cbn [mbind Completion_bind]. rewrite has_git.
  cbn [mbind Completion_bind]. rewrite Hrefs. cbn [mbind Completion_bind].
  set (p := fun branch : GitRef =>
              bool_decide (ref_name branch = Some ("refs/heads/" ++ branchName)%string)).
  split; [intros ->; reflexivity |].
  split.
  - intros l -> Hnone. cbn [mbind option_bind].
    pose proof (find_first p l) as Hfind.
    destruct (List.find p l) as [x |]; [| reflexivity].
    destruct Hfind as (before & after & -> & Hx & _).
    apply Forall_app in Hnone as [_ Hnone]. apply Forall_cons in Hnone as [Hnx _].
    apply bool_decide_eq_true in Hx. contradiction.
  - intros before branch after -> Hname Hbefore. cbn [mbind option_bind].
    assert (Hfind : List.find p (before ++ branch :: after) = Some branch).
    { clear -Hname Hbefore. induction Hbefore as [|y before Hy _ IH]; simpl.
      - unfold p at 1. now rewrite bool_decide_eq_true_2.
      - unfold p at 1. rewrite bool_decide_eq_false_2 by exact Hy. exact IH. }
    now rewrite Hfind.
Qed.
End BranchLookup.

Lemma get_branch_by_name_finds_the_first_witness :
  get_branch_by_name (stringify_ref := opaque_json) sample_connection "repo" "feature/x"
  = Return {| content := ["<json>"]; isError := None |}.
Proof.
  destruct (get_branch_by_name_finds_the_first (stringify_ref := opaque_json)
              sample_connection {| getGitApi := Return sample_gitApi |} sample_gitApi
              eq_refl eq_refl "repo" "feature/x" (Some example_refs) eq_refl)
    as (_ & _ & Hfound).
  apply (Hfound [ref_named "refs/heads/main"] (ref_named "refs/heads/feature/x")
           [ref_named "refs/tags/v1"]); [reflexivity | reflexivity |].
  apply Forall_cons. split; [discriminate | apply Forall_nil; exact I].
Defined.

Section ThreadListing.
Context {stringify_threads : Stringify (option (list GitPullRequestCommentThread))}.
Variable connectionProvider : Completion WebApi.
Variables (connection : WebApi) (gitApi : GitApi).
Hypothesis connected : connectionProvider = Return connection.
Hypothesis has_git : getGitApi connection = Return gitApi.

(** X7. When the upstream returns threads and [skip] and [top] are not
    negative, the thread listing returns, without the error flag, the
    serialisation of [top] threads from offset [skip] of a rearrangement of
    the upstream threads that ascends by id, a missing id counting as 0; when
    the upstream returns no list, it serialises [undefined]. *)
Theorem thread_listing_page (repositoryId : string) (pullRequestId : Z)
    (project : option string) (iteration baseIteration : option Z) (top skip : Z)
    (threads : option (list GitPullRequestCommentThread)) :
  getThreads gitApi repositoryId pullRequestId project iteration baseIteration
  = Return threads ->
  (0 <= skip)%Z -> (0 <= top)%Z ->
  match threads with
  | None =>
      list_azure_devops_pull_request_threads connectionProvider repositoryId pullRequestId
        project iteration baseIteration top skip
      = Return {| content := [JSON_stringify None]; isError := None |}
  | Some threads =>
      exists sorted,
        sorted ≡ₚ threads
        /\ StronglySorted
             (fun a b => (default 0 (thread_id a) <= default 0 (thread_id b))%Z) sorted
        /\ list_azure_devops_pull_request_threads connectionProvider repositoryId
             pullRequestId project iteration baseIteration top skip
           = Return {| content :=
                         [JSON_stringify
                            (Some (take (Z.to_nat top) (drop (Z.to_nat skip) sorted)))];
                       isError := None |}
  end.
Proof.
  intros Hthreads Hskip Htop. unfold list_azure_devops_pull_request_threads.
  rewrite connected. cbn [mbind Completion_bind]. rewrite has_git.
  cbn [mbind Completion_bind]. rewrite Hthreads. cbn [mbind Completion_bind].
  destruct threads as [threads |]; [| reflexivity].
  exists (Js.sort compareThreadIds threads).
  destruct (threads_sorted_by_id threads) as [Hsorted Hperm].
  split; [exact Hperm |]. split; [exact Hsorted |].
  cbn [option_map]. now rewrite slice_take_drop.
Qed.
End ThreadListing.

Lemma thread_listing_page_witness :
  list_azure_devops_pull_request_threads (stringify_threads := opaque_json)
    sample_connection "repo" 42 None None None 1 1
  = Return {| content := ["<json>"]; isError := None |}.
Proof.
  destruct (thread_listing_page (stringify_threads := opaque_json) sample_connection
              {| getGitApi := Return sample_gitApi |} sample_gitApi eq_refl eq_refl
              "repo" 42 None None None 1 1
              (Some [thread_with_id 2; thread_with_id 1]) eq_refl)
    as (sorted & _ & _ & Hpage); [lia | lia |].
  rewrite Hpage. reflexivity.
Defined.

(** ** The repository filter *)

Lemma lowerCodeUnit_idempotent (c : ascii) :
  Js.lowerCodeUnit (Js.lowerCodeUnit c) = Js.lowerCodeUnit c.
Proof. destruct c as [[] [] [] [] [] [] [] []]; reflexivity. Qed.

Lemma toLowerCase_idempotent (s : string) :
  Js.toLowerCase (Js.toLowerCase s) = Js.toLowerCase s.
Proof.
  induction s as [|c s IH]; simpl; [reflexivity |].
  now rewrite lowerCodeUnit_idempotent, IH.
Qed.

Lemma toLowerCase_truthy (s : string) : Js.truthy (Js.toLowerCase s) = Js.truthy s.
Proof. destruct s; reflexivity. Qed.

(** The test of the filter callback for the lower-cased filter [f]. *)
Lemma filterRepositories_Some (nameOrId : string) (repositories : list GitRepository) :
  Js.truthy nameOrId = true ->
  filterRepositories (Some nameOrId) (Some repositories)
  = Some (List.filter
            (fun repo =>
               match repo_name repo with
               | Some name => Js.includes (Js.toLowerCase name) (Js.toLowerCase nameOrId)
               | None => false
               end
               || bool_decide (repo_id repo = Some (Js.toLowerCase nameOrId)))
            repositories).
Proof.
  intros Ht. unfold filterRepositories. cbn [option_map].
  now rewrite toLowerCase_truthy, Ht.
Qed.

(** X8. The repository filter keeps every repository when the filter is
    absent or empty. Otherwise it keeps, in the upstream order, exactly the
    repositories whose lower-cased name includes the lower-cased filter or
    whose id is the lower-cased filter; so the case of the filter does not
    matter, and filtering a second time changes nothing. *)
Theorem filterRepositories_selects (nameOrId : string) (repositories : list GitRepository) :
  filterRepositories None (Some repositories) = Some repositories
  /\ filterRepositories (Some "") (Some repositories) = Some repositories
  /\ (exists kept,
        filterRepositories (Some nameOrId) (Some repositories) = Some kept
        /\ kept `sublist_of` repositories
        /\ (Js.truthy nameOrId = true ->
            forall repo,
              repo ∈ kept
              <-> repo ∈ repositories
                  /\ ((exists name, repo_name repo = Some name
                         /\ Js.includes (Js.toLowerCase name) (Js.toLowerCase nameOrId) = true)
                      \/ repo_id repo = Some (Js.toLowerCase nameOrId)))
        /\ filterRepositories (Some nameOrId) (Some kept) = Some kept)
  /\ filterRepositories (Some (Js.toLowerCase nameOrId)) (Some repositories)
     = filterRepositories (Some nameOrId) (Some repositories).
Proof.
  split; [reflexivity |]. split; [reflexivity |].
  destruct (Js.truthy nameOrId) eqn:Ht.
  - rewrite !filterRepositories_Some by (now rewrite ?toLowerCase_truthy).
    rewrite toLowerCase_idempotent.
    set (p := fun repo : GitRepository => _).
    split; [| reflexivity].
    exists (List.filter p repositories).
    split; [reflexivity |].
    split.
    { clear. induction repositories as [|r rs IH]; simpl; [constructor |].
      destruct (p r); [now apply sublist_skip | now apply sublist_cons]. }
    split.
    { intros _ repo. rewrite !list_elem_of_In, List.filter_In. subst p. cbn beta.
      rewrite orb_true_iff, bool_decide_eq_true.
      destruct (repo_name repo) as [name |].
      - split.
        + intros [Hin [Hn | Hi]]; (split; [exact Hin |]); [left; eauto | now right].
        + intros [Hin [(n & [= <-] & Hn) | Hi]]; (split; [exact Hin |]); tauto.
      - split.
        + intros [Hin [Hn | Hi]]; [discriminate |]. split; [exact Hin | now right].
        + intros [Hin [(n & Hn & _) | Hi]]; [discriminate |]. split; [exact Hin | now right]. }
    rewrite filterRepositories_Some by exact Ht. f_equal.
    fold p. clear. induction repositories as [|r rs IH]; simpl; [reflexivity |].
    destruct (p r) eqn:Hr; simpl; [now rewrite Hr, IH | exact IH].
  - destruct nameOrId; [| discriminate]. split; [| reflexivity].
    exists repositories. split; [reflexivity |]. split; [reflexivity |].
    split; [discriminate | reflexivity].
Qed.

Example filterRepositories_examples :
  filterRepositories (Some "ALP") (Some [sample_repository]) = Some [sample_repository]
  /\ filterRepositories (Some "7f1c") (Some [sample_repository]) = Some [sample_repository]
  /\ filterRepositories (Some "7F1C") (Some [sample_repository]) = Some [sample_repository]
  /\ filterRepositories (Some "beta") (Some [sample_repository]) = Some []
  /\ filterRepositories (Some "beta") None = None.
Proof. repeat split; vm_compute; reflexivity. Qed.

(** ** The base of the diff *)

Lemma drop_append (p s : string) : Js.drop (String.length p) (p ++ s) = s.
Proof. induction p as [|c p IH]; [reflexivity | exact IH]. Qed.

Lemma startsWith_append (p s : string) : Js.startsWith (p ++ s) p = true.
Proof.
  induction p as [|c p IH]; [destruct s; reflexivity |].
  change (String c p ++ s)%string with (String c (p ++ s)). cbn [Js.startsWith].
  now rewrite Ascii.eqb_refl, IH.
Qed.

(** X9. The base of the diff always names a branch: the version is never
    absent or empty and its type is [Branch]. It is the target ref without
    its ["refs/heads/"] prefix when something follows the prefix, and "main"
    when the pull request has no target ref, an empty one, or the bare
    prefix. *)
Theorem baseVersionDescriptorOf_names_a_branch (pullRequest : GitPullRequest) :
  (exists branch,
     version (baseVersionDescriptorOf pullRequest) = Some branch
     /\ Js.truthy branch = true)
  /\ versionType (baseVersionDescriptorOf pullRequest) = GitVersionType.Branch
  /\ (forall branch,
        pr_targetRefName pullRequest = Some ("refs/heads/" ++ branch)%string ->
        Js.truthy branch = true ->
        version (baseVersionDescriptorOf pullRequest) = Some branch)
  /\ (pr_targetRefName pullRequest = None \/ pr_targetRefName pullRequest = Some ""
      \/ pr_targetRefName pullRequest = Some "refs/heads/" ->
      version (baseVersionDescriptorOf pullRequest) = Some "main").
Proof.
  unfold baseVersionDescriptorOf. cbn [version versionType].
  split; [| split; [reflexivity | split]].
  - eexists. split; [reflexivity |]. now apply or_else_truthy.
  - intros branch -> Hb. cbn [option_map].
    rewrite (replace_startsWith _ _ _ (startsWith_append "refs/heads/" branch)).
    rewrite drop_append. change ("" ++ branch)%string with branch.
    unfold Js.or_else. now rewrite Hb.
  - intros [-> | [-> | ->]]; reflexivity.
Qed.

(** ** Pull-request listings, status updates and reviewers *)

Section PullRequestListing.
Context {stringify_pull_requests : Stringify (list PullRequestResult)}.
Variable connectionProvider : Completion PullRequestConnection.
Variable getCurrentUserDetails : Completion UserDetails.
Variables (connection : PullRequestConnection) (gitApi : PullRequestApi).
Hypothesis connected : connectionProvider = Return connection.
Hypothesis has_git : getPullRequestApi connection = Return gitApi.

Lemma status_token_translates (status : string) :
  status ∈ status_tokens -> exists code, pullRequestStatusStringToInt status = Return code.
Proof.
  unfold status_tokens. rewrite !elem_of_cons, elem_of_nil.
  intros [-> | [-> | [-> | [-> | [-> | []]]]]]; eexists; reflexivity.
Qed.

(** X10. For every status that the schema admits, the two pull-request
    listings query the upstream with the code of the status and, for the
    listing by repository, the repository. When neither [created_by_me] nor
    [i_am_reviewer] is set, the current user is not looked up, so the result
    does not depend on that lookup; when one is set and the lookup fails, the
    handler rejects with that failure; when it succeeds, [creatorId] is the
    id of the user exactly when [created_by_me] is set and [reviewerId]
    exactly when [i_am_reviewer] is set. A missing upstream list is rendered
    as the empty list, and no envelope has the error flag. *)
Theorem pull_request_listing_criteria (repositoryId project status : string) (top skip : Z)
    (created_by_me i_am_reviewer : bool) :
  status ∈ status_tokens ->
  exists code,
    pullRequestStatusStringToInt status = Return code
    /\ (created_by_me = false -> i_am_reviewer = false ->
        list_pull_requests_by_repo connectionProvider getCurrentUserDetails repositoryId
          top skip created_by_me i_am_reviewer status
        = (getPullRequests gitApi repositoryId
             {| criteria_status := code; criteria_repositoryId := Some repositoryId;
                criteria_creatorId := None; criteria_reviewerId := None |} skip top
           ≫= fun pullRequests => mret (pullRequestsEnvelope pullRequests))
        /\ list_pull_requests_by_project connectionProvider getCurrentUserDetails project
             top skip created_by_me i_am_reviewer status
           = (getPullRequestsByProject gitApi project
                {| criteria_status := code; criteria_repositoryId := None;
                   criteria_creatorId := None; criteria_reviewerId := None |} skip top
              ≫= fun pullRequests => mret (pullRequestsEnvelope pullRequests)))
    /\ (forall e,
          created_by_me || i_am_reviewer = true -> getCurrentUserDetails = Throw e ->
          list_pull_requests_by_repo connectionProvider getCurrentUserDetails repositoryId
            top skip created_by_me i_am_reviewer status = Throw e
          /\ list_pull_requests_by_project connectionProvider getCurrentUserDetails project
               top skip created_by_me i_am_reviewer status = Throw e)
    /\ (forall data,
          created_by_me || i_am_reviewer = true -> getCurrentUserDetails = Return data ->
          let userId := authenticatedUser_id data in
          list_pull_requests_by_repo connectionProvider getCurrentUserDetails repositoryId
            top skip created_by_me i_am_reviewer status
          = (getPullRequests gitApi repositoryId
               {| criteria_status := code; criteria_repositoryId := Some repositoryId;
                  criteria_creatorId := if created_by_me then Some userId else None;
                  criteria_reviewerId := if i_am_reviewer then Some userId else None |}
               skip top
             ≫= fun pullRequests => mret (pullRequestsEnvelope pullRequests))
          /\ list_pull_requests_by_project connectionProvider getCurrentUserDetails project
               top skip created_by_me i_am_reviewer status
             = (getPullRequestsByProject gitApi project
                  {| criteria_status := code; criteria_repositoryId := None;
                     criteria_creatorId := if created_by_me then Some userId else None;
                     criteria_reviewerId := if i_am_reviewer then Some userId else None |}
                  skip top
                ≫= fun pullRequests => mret (pullRequestsEnvelope pullRequests)))
    /\ pullRequestsEnvelope None
       = {| content := [JSON_stringify (@nil PullRequestResult)]; isError := None |}
    /\ (forall pullRequests, isError (pullRequestsEnvelope pullRequests) = None).
Proof.
  intros Hstatus. destruct (status_token_translates status Hstatus) as [code Hcode].
  exists code. split; [exact Hcode |].
  unfold list_pull_requests_by_repo, list_pull_requests_by_project.
  rewrite connected. cbn [mbind Completion_bind]. rewrite has_git.
  cbn [mbind Completion_bind]. rewrite Hcode. cbn [mbind Completion_bind].
  unfold withCurrentUser.
  split; [intros -> ->; split; reflexivity |].
  split; [intros e -> ->; split; reflexivity |].
  split; [| split; reflexivity].
  intros data -> ->. cbv zeta. cbn [mbind Completion_bind mret Completion_ret].
  destruct created_by_me, i_am_reviewer; split; reflexivity.
Qed.
End PullRequestListing.

Lemma pull_request_listing_criteria_witness :
  list_pull_requests_by_repo (stringify_pull_requests := opaque_json)
    sample_pull_request_connection (Throw (Error "no identity")) "repo" 100 0 false false
    "active"
  = Return {| content := ["<json>"]; isError := None |}.
Proof.
  destruct (pull_request_listing_criteria (stringify_pull_requests := opaque_json)
              sample_pull_request_connection (Throw (Error "no identity"))
              {| getPullRequestApi := Return sample_pull_request_api |}
              sample_pull_request_api eq_refl eq_refl "repo" "proj" "active" 100 0
              false false)
    as (code & Hcode & Hplain & _).
  - unfold status_tokens. rewrite !elem_of_cons. tauto.
  - destruct (Hplain eq_refl eq_refl) as [Hrepo _]. rewrite Hrepo.
    injection Hcode as <-. reflexivity.
Defined.

Section StatusUpdate.
Context {stringify_upstream_pull_request : Stringify GitPullRequest}.
Variable connectionProvider : Completion PullRequestConnection.
Variables (connection : PullRequestConnection) (gitApi : PullRequestApi).
Hypothesis connected : connectionProvider = Return connection.
Hypothesis has_git : getPullRequestApi connection = Return gitApi.

(** X11. The status update sends the code 3 for "active" and 2 for every
    other status. 2 is the code of [Abandoned], as the translation of the
    listings has it for "abandoned"; 3 is the code of [Completed], whereas
    the translation of the listings has 1 for "active". The handler has no
    [try]: it returns the serialised answer of the upstream or rejects with
    its failure. *)
Theorem update_pull_request_status_code (repositoryId status : string) (pullRequestId : Z) :
  update_pull_request_status connectionProvider repositoryId pullRequestId status
  = (updatePullRequest gitApi (statusValueOf status) repositoryId pullRequestId
     ≫= fun updated => mret {| content := [JSON_stringify updated]; isError := None |})
  /\ statusValueOf "active" = PullRequestStatus.Completed
  /\ (status <> "active" -> statusValueOf status = PullRequestStatus.Abandoned)
  /\ pullRequestStatusStringToInt "abandoned" = Return (statusValueOf "abandoned")
  /\ pullRequestStatusStringToInt "active" = Return PullRequestStatus.Active
  /\ PullRequestStatus.Active <> statusValueOf "active".
Proof.
  split.
  { unfold update_pull_request_status. rewrite connected. cbn [mbind Completion_bind].
    rewrite has_git. reflexivity. }
  split; [reflexivity |].
  split.
  { intros Hne. unfold statusValueOf. now rewrite (proj2 (String.eqb_neq _ _) Hne). }
  repeat split. discriminate.
Qed.
End StatusUpdate.

Lemma update_pull_request_status_code_witness :
  update_pull_request_status (stringify_upstream_pull_request := opaque_json)
    sample_pull_request_connection "repo" 42 "active"
  = Throw (Error "TF401181: the pull request cannot be completed")
  /\ update_pull_request_status (stringify_upstream_pull_request := opaque_json)
       sample_pull_request_connection "repo" 42 "abandoned"
     = Return {| content := ["<json>"]; isError := None |}.
Proof.
  split.
  - destruct (update_pull_request_status_code (stringify_upstream_pull_request := opaque_json)
                sample_pull_request_connection
                {| getPullRequestApi := Return sample_pull_request_api |}
                sample_pull_request_api eq_refl eq_refl "repo" "active" 42) as (Hupdate & _).
    rewrite Hupdate. reflexivity.
  - reflexivity.
Defined.

(** *** Removing reviewers *)

Section ReviewerRemoval.
Variable U : Type.
Context {stringify_reviewers : Stringify (list IdentityRefWithVote)}.
Variable connectionProvider : Completion (ReviewerConnection U).
Variables (connection : ReviewerConnection U) (gitApi : ReviewerApi U).
Hypothesis connected : connectionProvider = Return connection.
Hypothesis has_git : getReviewerApi connection = Return gitApi.


End ReviewerRemoval.


Example reviewer_removal_examples :
  update_pull_request_reviewers (stringify_reviewers := opaque_json)
    sample_reviewer_connection "repo" 42 ["ann"; "cy"] "remove" ["ann"; "bob"; "cy"]
  = (["bob"],
     Return {| content := ["Reviewers with IDs ann, cy removed from pull request 42."];
               isError := None |})
  /\ Number_toString 0 = "0" /\ Number_toString (-7) = "-7".
Proof. repeat split; vm_compute; reflexivity. Qed.

(** ** Work items of a new pull request *)

Lemma split_length (sep : ascii) (s : string) :
  length (Js.split sep s) = S (occurrences sep s).
Proof.
  induction s as [|c s IH]; simpl; [reflexivity |].
  destruct (Ascii.eqb c sep); simpl; [now rewrite IH |].
  pose proof (split_nonempty sep s) as Hne.
  destruct (Js.split sep s) as [|w ws]; [contradiction | exact IH].
Qed.

Lemma no_white_space_is_no_space (c : ascii) :
  Js.isWhiteSpace c = false -> Ascii.eqb c " " = false.
Proof.
  intros Hc. destruct (Ascii.eqb_spec c " ") as [-> | _]; [discriminate Hc | reflexivity].
Qed.

Lemma split_no_white_space (s : string) :
  hasNoWhiteSpace s = true -> Js.split " " s = [s].
Proof.
  induction s as [|c s IH]; simpl; [reflexivity |].
  intros [Hc Hs]%andb_prop. apply negb_true_iff in Hc.
  now rewrite (no_white_space_is_no_space c Hc), (IH Hs).
Qed.

Lemma trim_no_white_space (s : string) : hasNoWhiteSpace s = true -> Js.trim s = s.
Proof.
  intros Hs. unfold Js.trim.
  assert (Hstart : Js.trimStart s = s).
  { destruct s as [|c s]; [reflexivity |]. simpl in *.
    apply andb_prop in Hs as [Hc _]. apply negb_true_iff in Hc. now rewrite Hc. }
  rewrite Hstart. clear Hstart.
  induction s as [|c s IH]; [reflexivity |]. simpl in *.
  apply andb_prop in Hs as [Hc Hs]. apply negb_true_iff in Hc.
  rewrite (IH Hs), Hc. destruct s; reflexivity.
Qed.

Lemma split_concat_spaces (ids : list string) :
  ids <> [] -> Forall (fun id => hasNoWhiteSpace id = true) ids ->
  Js.split " " (String.concat " " ids) = ids.
Proof.
  intros Hne Hids. induction Hids as [|id ids Hid Hids IH]; [contradiction |].
  destruct ids as [|id' ids]; [now apply split_no_white_space |].
  change (String.concat " " (id :: id' :: ids))
    with (id ++ String " " (String.concat " " (id' :: ids)))%string.
  rewrite split_app, (split_no_white_space id Hid), IH by discriminate. reflexivity.
Qed.

Lemma concat_truthy (ids : list string) :
  ids <> [] -> Forall (fun id => Js.truthy id = true) ids ->
  Js.truthy (String.concat " " ids) = true.
Proof.
  intros Hne Hids. destruct Hids as [|id ids Hid Hids]; [contradiction |].
  destruct ids as [|id' ids]; [exact Hid |].
  change (String.concat " " (id :: id' :: ids))
    with (id ++ String " " (String.concat " " (id' :: ids)))%string.
  destruct id; [discriminate Hid | reflexivity].
Qed.

(** X13. The work items of a new pull request: no reference is sent for an
    absent or empty string; otherwise one reference is sent for each piece
    between spaces, so one more than there are spaces, and two spaces in a
    row give a reference with an empty id. Ids that are not empty and hold no
    white space, joined by single spaces, come back as they were. *)
Theorem workItemRefsOf_pieces (workItems : string) (ids : list string) :
  workItemRefsOf None = []
  /\ workItemRefsOf (Some "") = []
  /\ (Js.truthy workItems = true ->
      length (workItemRefsOf (Some workItems)) = S (occurrences " " workItems))
  /\ (ids <> [] ->
      Forall (fun id => hasNoWhiteSpace id = true /\ Js.truthy id = true) ids ->
      workItemRefsOf (Some (String.concat " " ids))
      = map (fun id => {| rr_id := Some id; rr_url := None |}) ids)
  /\ workItemRefsOf (Some "12  34")
     = [ {| rr_id := Some "12"; rr_url := None |}; {| rr_id := Some ""; rr_url := None |};
         {| rr_id := Some "34"; rr_url := None |} ].
Proof.
  split; [reflexivity |]. split; [reflexivity |].
  split; [| split; [| reflexivity]].
  - intros Ht. unfold workItemRefsOf. rewrite Ht, length_map. apply split_length.
  - intros Hne Hids. apply Forall_and in Hids as [Hws Htruthy].
    unfold workItemRefsOf. rewrite (concat_truthy ids Hne Htruthy).
    rewrite (split_concat_spaces ids Hne Hws).
    clear Hne Htruthy. induction Hws as [|id ids Hid _ IH]; [reflexivity |].
    cbn [map]. rewrite IH. unfold workItemRef. now rewrite (trim_no_white_space id Hid).
Qed.

(** ** Code search *)

Section CodeSearchProperties.
Context {stringify_search_result : Stringify SearchResult}
        {stringify_request : Stringify CodeSearchRequest}
        {stringify_combined : Stringify (list CombinedResult)}.
Variable thrownText : Thrown -> string.
Variable validate : string -> bool.
Variable apiVersion : string.
Variable fetch : string -> FetchInit -> Completion Response.
Variable parseResults : string -> Completion (option (list SearchResult)).

Lemma push_all_is_map {A B} (f : A -> B) (l : list A) (acc : list B) :
  foldl (fun acc a => acc ++ [f a]) acc l = acc ++ map f l.
Proof.
  revert acc. induction l as [|a l IH]; intros acc; simpl; [now rewrite app_nil_r |].
  now rewrite IH, <- app_assoc.
Qed.

(** X14. [fetchCombinedResults] never rejects and returns one entry for each
    search result, in the order of the results, each decided by its result
    alone. A result that lacks the id of its project, the id of its
    repository, its path or the change id of its first version (absent or
    empty) gives an error entry without a call of the upstream; a complete
    one gives the item that [getItem] returns, or an error entry with the
    text of its failure, and the results after a failure are still fetched. *)
Theorem fetchCombinedResults_entries (gitApi : SearchGitApi) (results : list SearchResult) :
  fetchCombinedResults thrownText results gitApi
  = Return (map (combineOne thrownText gitApi) results)
  /\ (forall searchResult projectId repositoryId filePath changeId,
        fields_of searchResult
        = [Some projectId; Some repositoryId; Some filePath; Some changeId] ->
        Js.truthy projectId = true -> Js.truthy repositoryId = true ->
        Js.truthy filePath = true -> Js.truthy changeId = true ->
        combineOne thrownText gitApi searchResult
        = match getItem gitApi repositoryId filePath projectId
                  {| item_version := changeId; item_versionType := 2;
                     item_versionOptions := 0 |} with
          | Return item => GitItemEntry item
          | Throw err => ErrorEntry (thrownText err)
          end)
  /\ (forall searchResult,
        Exists (fun field => Js.truthy_opt field = false) (fields_of searchResult) ->
        combineOne thrownText gitApi searchResult
        = ErrorEntry ("Missing projectId, repositoryId, filePath, or changeId in the result: "
                      ++ JSON_stringify searchResult)).
Proof.
  split; [| split].
  - unfold fetchCombinedResults. now rewrite push_all_is_map.
  - intros searchResult projectId repositoryId filePath changeId Hfields Hp Hr Hf Hc.
    unfold fields_of in Hfields. injection Hfields as Hpf Hrf Hff Hcf.
    unfold combineOne. cbv zeta. rewrite Hpf, Hrf, Hff.
    replace (match sr_versions searchResult with
             | Some (first :: _) => entry_changeId first
             | Some [] | None => None
             end) with (Some changeId)
      by (rewrite <- Hcf; destruct (sr_versions searchResult) as [[|? ?] |]; reflexivity).
    now rewrite Hp, Hr, Hf, Hc.
  - intros searchResult Hmissing. unfold fields_of in Hmissing.
    unfold combineOne. cbv zeta.
    destruct (sr_project searchResult ≫= holder_id) as [projectId |];
      destruct (sr_repository searchResult ≫= holder_id) as [repositoryId |];
      destruct (sr_path searchResult) as [filePath |];
      destruct (sr_versions searchResult) as [[|[[changeId |]] ?] |];
      try reflexivity.
    cbn [entry_changeId] in *.
    destruct (Js.truthy projectId) eqn:Hp; [| reflexivity].
    destruct (Js.truthy repositoryId) eqn:Hr; [| reflexivity].
    destruct (Js.truthy filePath) eqn:Hf; [| reflexivity].
    destruct (Js.truthy changeId) eqn:Hc; [| reflexivity].
    exfalso. repeat (apply Exists_cons in Hmissing as [Hmissing | Hmissing];
                     [cbn in Hmissing; congruence |]).
    now apply Exists_nil in Hmissing.
Qed.

(** What [filterList] can be. *)
Lemma filterList_cases (f : option string) :
  filterList f = (if Js.truthy_opt f then Some [default "" f] else None).
Proof. destruct f as [s |]; [| reflexivity]. cbn. destruct (Js.truthy s); reflexivity. Qed.

(** X15. A request that [prepareSearchRequest] returns has the text, the
    offsets and the facets flag of the request it was given, and either is
    that request unchanged or has filters with: a path filter only together
    with a repository filter and a project filter; a repository filter only
    together with a project filter; and each filter that is present a list
    of one string that is not empty. Without UUIDs among the filters, a
    repository filter without a project filter, and a path filter without a
    repository or a project filter, are rejected with the error of the
    source. *)
Theorem prepareSearchRequest_filters (connection : SearchConnection) (gitApi : SearchGitApi)
    (searchRequest : CodeSearchRequest) (projectFilter repoFilter pathFilter : option string) :
  (forall request,
     prepareSearchRequest validate connection gitApi searchRequest projectFilter repoFilter
       pathFilter = Return request ->
     searchText request = searchText searchRequest
     /\ skip_ request = skip_ searchRequest
     /\ top_ request = top_ searchRequest
     /\ includeFacets request = includeFacets searchRequest
     /\ (request = searchRequest
         \/ exists f,
              filters request = Some f
              /\ (Path f <> None -> Repository f <> None /\ Project f <> None)
              /\ (Repository f <> None -> Project f <> None)
              /\ Forall (fun filter =>
                           filter = None
                           \/ exists s, filter = Some [s] /\ Js.truthy s = true)
                   [Project f; Repository f; Path f]
              /\ Branch f = None /\ CodeElement f = None))
  /\ ((forall id, validate id = false) ->
      Js.truthy_opt repoFilter = true -> Js.truthy_opt projectFilter = false ->
      prepareSearchRequest validate connection gitApi searchRequest projectFilter repoFilter
        pathFilter
      = Throw (Error "project filter is reuiqred when repository filter is used."))
  /\ ((forall id, validate id = false) ->
      Js.truthy_opt pathFilter = true -> Js.truthy_opt repoFilter = false ->
      prepareSearchRequest validate connection gitApi searchRequest projectFilter repoFilter
        pathFilter
      = Throw (Error
                 "Both project and repository filter are reuiqred when path filter is used.")).
Proof.
  split; [| split].
  - intros request. unfold prepareSearchRequest.
    destruct (resolveFilters validate connection gitApi projectFilter repoFilter)
      as [[project repo] | e]; [| discriminate].
    cbn [mbind Completion_bind]. unfold checkFilters.
    destruct (Js.truthy_opt repo) eqn:Hrepo, (Js.truthy_opt project) eqn:Hproject,
      (Js.truthy_opt pathFilter) eqn:Hpath;
      cbn [andb orb negb mbind Completion_bind mret Completion_ret];
      try discriminate; intros [= <-]; unfold withFilters;
      rewrite ?Hrepo, ?Hproject, ?Hpath; cbn [orb];
      cbn [searchText skip_ top_ includeFacets filters];
      (do 4 (split; [reflexivity |]));
      try (left; reflexivity);
      right; eexists; (split; [reflexivity |]);
      cbn [Project Repository Path Branch CodeElement];
      rewrite !filterList_cases, ?Hrepo, ?Hproject, ?Hpath;
      (split; [intros Hp; try (now destruct Hp); split; discriminate |]);
      (split; [intros Hp; try (now destruct Hp); discriminate |]);
      (split; [| split; reflexivity]);
      repeat (apply Forall_cons; split;
              [first [ now left
                     | right; eexists; split; [reflexivity |];
                       match goal with
                       | H : Js.truthy_opt ?f = true |- Js.truthy (default _ ?f) = true =>
                           destruct f; [exact H | discriminate H]
                       end ] |]);
      apply Forall_nil; exact I.
  - intros Hno Hrepo Hproject. unfold prepareSearchRequest, resolveFilters.
    assert (Hp : forall f : option string,
              match f with
              | Some id => Js.truthy id && validate id
              | None => false
              end = false).
    { intros [id |]; [rewrite Hno; apply andb_false_r | reflexivity]. }
    destruct projectFilter as [p |], repoFilter as [r |];
      rewrite ?Hno, ?andb_false_r; cbn [mbind Completion_bind mret Completion_ret];
      unfold checkFilters; rewrite ?Hrepo, ?Hproject; try reflexivity; discriminate.
  - intros Hno Hpath Hrepo. unfold prepareSearchRequest, resolveFilters.
    destruct projectFilter as [p |], repoFilter as [r |];
      rewrite ?Hno, ?andb_false_r; cbn [mbind Completion_bind mret Completion_ret];
      unfold checkFilters; rewrite ?Hrepo, ?Hpath; try reflexivity;
      cbn [andb negb orb]; try reflexivity; discriminate.
Qed.
End CodeSearchProperties.

(** X16. The results whose items are fetched: none when the answer has no
    array of results; the first [$top] of them, or all when there are fewer,
    for a [$top] that is not negative; and for a negative [$top] not none but
    all except the last [-$top]. *)
Theorem topResultsOf_count (searchRequest : CodeSearchRequest) (results : list SearchResult) :
  topResultsOf searchRequest None = []
  /\ ((0 <= top_ searchRequest)%Z ->
      topResultsOf searchRequest (Some results)
      = take (Z.to_nat (top_ searchRequest)) results
      /\ length (topResultsOf searchRequest (Some results))
         = Nat.min (Z.to_nat (top_ searchRequest)) (length results))
  /\ ((top_ searchRequest < 0)%Z ->
      topResultsOf searchRequest (Some results)
      = take (length results - Z.to_nat (- top_ searchRequest)) results).
Proof.
  split; [reflexivity |]. unfold topResultsOf. split.
  - intros Htop.
    assert (Heq : Js.slice results 0 (Z.min (top_ searchRequest) (Z.of_nat (length results)))
                  = take (Z.to_nat (top_ searchRequest)) results).
    { rewrite <- (Z.add_0_l (Z.min _ _)). rewrite slice_take_drop by lia.
      change (Z.to_nat 0) with 0%nat. rewrite drop_0.
      destruct (Z.le_gt_cases (top_ searchRequest) (Z.of_nat (length results))).
      - now rewrite Z.min_l.
      - rewrite Z.min_r by lia. rewrite !take_ge by lia. reflexivity. }
    rewrite Heq. split; [reflexivity | apply length_take].
  - intros Htop. unfold Js.slice. rewrite Z.min_l by lia.
    destruct (Z.ltb_spec 0 0) as [? | _]; [lia |].
    destruct (Z.ltb_spec (top_ searchRequest) 0) as [_ | ?]; [| lia].
    rewrite Z.min_l by lia. change (Z.to_nat 0) with 0%nat.
    change (List.skipn 0 results) with results. f_equal. lia.
Qed.

Lemma topResultsOf_count_witness :
  topResultsOf
    {| searchText := "needle"; skip_ := 0; top_ := -1; filters := None;
       includeFacets := None |}
    (Some [sample_search_result (Some "/a.ts"); sample_search_result None])
  = [sample_search_result (Some "/a.ts")].
Proof.
  destruct (topResultsOf_count
              {| searchText := "needle"; skip_ := 0; top_ := -1; filters := None;
                 includeFacets := None |}
              [sample_search_result (Some "/a.ts"); sample_search_result None])
    as (_ & _ & Hneg).
  rewrite Hneg; [reflexivity |]. cbn. lia.
Defined.

Section PerformCodeSearch.
Context {stringify_search_result : Stringify SearchResult}
        {stringify_request : Stringify CodeSearchRequest}
        {stringify_combined : Stringify (list CombinedResult)}.
Variable thrownText : Thrown -> string.
Variable validate : string -> bool.
Variable apiVersion : string.
Variable fetch : string -> FetchInit -> Completion Response.
Variable parseResults : string -> Completion (option (list SearchResult)).

(** X17. The outcome of [performCodeSearch] once the token, the clients and
    the organization name are there. When the filters are refused, the
    search fails with that error. When the request is sent and the answer is
    not [ok], it fails with "Azure DevOps Code Search API error: <status>
    <statusText>". When the answer is [ok], its text is read and parsed, the
    search returns the text followed by the serialisation of one entry for
    each of the top results, and no failure of [getItem] makes it fail. *)
Theorem performCodeSearch_outcome (searchRequest : CodeSearchRequest)
    (adoManager : ClientManager) (projectFilter repoFilter pathFilter : option string)
    (accessToken : string) (connection : SearchConnection) (orgName : option string)
    (gitApi : SearchGitApi) :
  getToken adoManager = Return accessToken ->
  getClient adoManager = Return connection ->
  getOrgName adoManager = Return orgName ->
  getSearchGitApi connection = Return gitApi ->
  let search :=
    performCodeSearch thrownText validate apiVersion fetch parseResults searchRequest
      adoManager projectFilter repoFilter pathFilter in
  let prepared :=
    prepareSearchRequest validate connection gitApi searchRequest projectFilter repoFilter
      pathFilter in
  let url :=
    ("https://almsearch.dev.azure.com/" ++ template_opt orgName
     ++ "/_apis/search/codesearchresults?api-version=" ++ apiVersion)%string in
  (forall e, prepared = Throw e -> search = Throw e)
  /\ (forall request,
        prepared = Return request ->
        let init :=
          {| fetch_method := "POST";
             fetch_headers :=
               [ ("Content-Type", "application/json");
                 ("Authorization", ("Bearer " ++ accessToken)%string);
                 ("User-Agent", getUserAgent adoManager) ];
             fetch_body := JSON_stringify request |} in
          (forall e, fetch url init = Throw e -> search = Throw e)
          /\ (forall response,
                fetch url init = Return response ->
                (response_ok response = false ->
                 search
                 = Throw (Error ("Azure DevOps Code Search API error: "
                                 ++ Number_toString (response_status response) ++ " "
                                 ++ response_statusText response)))
                /\ (forall resultText results,
                      response_ok response = true ->
                      response_text response = Return resultText ->
                      parseResults resultText = Return results ->
                      search
                      = Return (resultText
                                ++ JSON_stringify
                                     (map (combineOne thrownText gitApi)
                                        (topResultsOf request results)))%string))).
Proof.
  intros Htoken Hclient Horg Hgit. cbv zeta. unfold performCodeSearch.
  rewrite Htoken. cbn [mbind Completion_bind]. rewrite Hclient. cbn [mbind Completion_bind].
  rewrite Horg. cbn [mbind Completion_bind]. rewrite Hgit. cbn [mbind Completion_bind].
  split; [intros e ->; reflexivity |].
  intros request ->. cbn [mbind Completion_bind].
  split; [intros e ->; reflexivity |].
  intros response ->. cbn [mbind Completion_bind].
  split; [intros ->; reflexivity |].
  intros resultText results Hok Htext Hparse. rewrite Hok. cbn [negb].
  rewrite Htext. cbn [mbind Completion_bind]. rewrite Hparse. cbn [mbind Completion_bind].
  unfold fetchCombinedResults. now rewrite push_all_is_map.
Qed.
End PerformCodeSearch.

Lemma performCodeSearch_outcome_witness :
  performCodeSearch (stringify_search_result := opaque_json)
    (stringify_request := opaque_json) (stringify_combined := show_combined)
    (fun e => default "" (message e)) (fun _ => false) "7.1" (sample_fetch true) sample_parse
    sample_request sample_manager (Some "proj") None None
  = Return ("{}" ++ "TF401174: the item could not be found;"
            ++ "Missing projectId, repositoryId, filePath, or changeId in the result: <json>")%string
  /\ performCodeSearch (stringify_search_result := opaque_json)
       (stringify_request := opaque_json) (stringify_combined := show_combined)
       (fun e => default "" (message e)) (fun _ => false) "7.1" (sample_fetch false)
       sample_parse sample_request sample_manager (Some "proj") None None
     = Throw (Error "Azure DevOps Code Search API error: 503 Service Unavailable").
Proof.
  split.
  - destruct (performCodeSearch_outcome (stringify_search_result := opaque_json)
                (stringify_request := opaque_json) (stringify_combined := show_combined)
                (fun e => default "" (message e)) (fun _ => false) "7.1" (sample_fetch true)
                sample_parse sample_request sample_manager (Some "proj") None None
                "token" sample_search_connection (Some "contoso") sample_search_gitApi
                eq_refl eq_refl eq_refl eq_refl) as (_ & Hsent).
    destruct (Hsent _ eq_refl) as (_ & Hresponse).
    destruct (Hresponse _ eq_refl) as (_ & Hok).
    rewrite (Hok "{}" _ eq_refl eq_refl eq_refl). reflexivity.
  - reflexivity.
Defined.

(** ** The client manager *)

Section ClientManagerProperties.
Variable FS : Type.
Variable existsSync : FS -> string -> bool.
Variable mkdirSync : FS -> string -> FS * Completion unit.
Variable readFileSync : FS -> string -> Completion string.
Variable writeFileSync : FS -> string -> string -> FS * Completion unit.
Variable parseConfig : string -> Completion (option string).
Variable stringifyConfig : string -> string.
Variable homedir : string.
Variable path_join : string -> string -> string.
Variable credentialToken : Completion string.
Variable newWebApi : string -> string -> WebApi.
Variable localeCompare : string -> string -> Z.
Context {stringify_repositories : Stringify (list RepositoryResult)}
        {stringify_pull_request : Stringify PullRequestResult}
        {stringify_threads : Stringify (option (list GitPullRequestCommentThread))}.

Abbreviation getClient := (AzureClient.getClient credentialToken newWebApi).
Abbreviation newClientManager :=
  (AzureClient.newClientManager FS existsSync mkdirSync readFileSync parseConfig homedir
     path_join).
Abbreviation setOrgName := (AzureClient.setOrgName FS writeFileSync stringifyConfig).

(** X18. [getClient] acquires the token first: a failure of the credential
    is the failure of [getClient]. With a token, it builds the client for
    ["https://dev.azure.com/<name>"] when the manager has a name that is not
    empty, and otherwise throws the error that tells to set the
    organization; with that manager as connection provider the guarded
    repository tools answer with the error envelope that carries this text,
    and the thread listing rejects with it. *)
Theorem getClient_needs_an_organization (this : AzureClient.AzureDevOpsClientManager)
    (token : string) :
  (forall e, credentialToken = Throw e -> getClient this = Throw e)
  /\ (credentialToken = Return token ->
      (forall name, AzureClient.orgName this = Some name -> Js.truthy name = true ->
         getClient this = Return (newWebApi ("https://dev.azure.com/" ++ name)%string token))
      /\ (Js.truthy_opt (AzureClient.orgName this) = false ->
          getClient this = Throw (Error AzureClient.organization_missing)
          /\ (forall project top skip repositoryNameOrId,
                get_azure_devops_repositories localeCompare (getClient this) project top skip
                  repositoryNameOrId
                = Return {| content := [AzureClient.organization_missing];
                            isError := Some true |})
          /\ (forall repositoryId pullRequestId,
                get_azure_devops_pull_request_by_id (getClient this) repositoryId
                  pullRequestId
                = Return {| content := [AzureClient.organization_missing];
                            isError := Some true |})
          /\ (forall repositoryId pullRequestId project iteration baseIteration top skip,
                list_azure_devops_pull_request_threads (getClient this) repositoryId
                  pullRequestId project iteration baseIteration top skip
                = Throw (Error AzureClient.organization_missing)))).
Proof.
  split.
  - intros e He. unfold AzureClient.getClient. now rewrite He.
  - intros Htoken. split.
    + intros name Hname Htruthy. unfold AzureClient.getClient, AzureClient.getOrgName.
      rewrite Htoken, Hname. cbn [mbind Completion_bind mret Completion_ret].
      now rewrite Htruthy.
    + intros Hmissing.
      assert (Hclient : getClient this = Throw (Error AzureClient.organization_missing)).
      { unfold AzureClient.getClient, AzureClient.getOrgName. rewrite Htoken.
        cbn [mbind Completion_bind mret Completion_ret].
        destruct (AzureClient.orgName this) as [name |]; [| reflexivity].
        cbn in Hmissing. now rewrite Hmissing. }
      split; [exact Hclient |].
      split; [| split].
      * intros. unfold get_azure_devops_repositories, getRepositoriesResult.
        now rewrite Hclient.
      * intros. unfold get_azure_devops_pull_request_by_id, getPullRequestResult.
        now rewrite Hclient.
      * intros. unfold list_azure_devops_pull_request_threads. now rewrite Hclient.
Qed.

(** X19. The organization name across restarts. A name given to the
    constructor, when not empty, is the name of the manager and the
    configuration file is not consulted. Without one, the name is what the
    configuration file yields: nothing when the directory cannot be made,
    when the file does not exist, cannot be read or cannot be parsed, and
    none of these failures is thrown. [setOrgName] sets the name whatever the
    file system does, and when the file that it wrote is read back with the
    name, a manager constructed later without a name has that name. *)
Theorem org_name_reload (fs : FS) (given : option string) :
  let dir := path_join homedir ".azure-devops-mcp" in
  let file := path_join dir "config.json" in
  (Js.truthy_opt given = true ->
   AzureClient.orgName (snd (newClientManager given fs)) = given)
  /\ (Js.truthy_opt given = false ->
      (forall fs' e, existsSync fs dir = false -> mkdirSync fs dir = (fs', Throw e) ->
         AzureClient.orgName (snd (newClientManager given fs)) = None
         /\ AzureClient.configFile (snd (newClientManager given fs)) = None)
      /\ (existsSync fs dir = true ->
          AzureClient.orgName (snd (newClientManager given fs))
          = if existsSync fs file then
              match readFileSync fs file with
              | Return data =>
                  match parseConfig data with
                  | Return name => name
                  | Throw _ => None
                  end
              | Throw _ => None
              end
            else None))
  /\ (forall this name,
        AzureClient.orgName (snd (setOrgName this name fs)) = Some name
        /\ (AzureClient.configFile this = None -> fst (setOrgName this name fs) = fs)
        /\ (AzureClient.configFile this = Some file ->
            let fs1 := fst (setOrgName this name fs) in
            fs1 = fst (writeFileSync fs file (stringifyConfig name))
            /\ (existsSync fs1 dir = true -> existsSync fs1 file = true ->
                readFileSync fs1 file = Return (stringifyConfig name) ->
                parseConfig (stringifyConfig name) = Return (Some name) ->
                AzureClient.orgName (snd (newClientManager None fs1)) = Some name))).
Proof.
  cbv zeta.
  assert (Hload : forall fs0 : FS,
            existsSync fs0 (path_join homedir ".azure-devops-mcp") = true ->
            AzureClient.orgName (snd (newClientManager None fs0))
            = if existsSync fs0
                   (path_join (path_join homedir ".azure-devops-mcp") "config.json")
              then
                match readFileSync fs0
                        (path_join (path_join homedir ".azure-devops-mcp") "config.json") with
                | Return data =>
                    match parseConfig data with
                    | Return name => name
                    | Throw _ => None
                    end
                | Throw _ => None
                end
              else None).
  { intros fs0 Hdir. unfold AzureClient.newClientManager. rewrite Hdir.
    cbn [negb Js.truthy_opt snd AzureClient.orgName].
    unfold AzureClient.loadOrgNameFromFile. cbn [AzureClient.configFile].
    destruct (existsSync fs0
                (path_join (path_join homedir ".azure-devops-mcp") "config.json"));
      [| reflexivity].
    destruct (readFileSync fs0 _) as [data | e]; [| reflexivity].
    cbn [mbind Completion_bind]. destruct (parseConfig data); reflexivity. }
  split; [| split].
  - intros Hgiven. unfold AzureClient.newClientManager.
    destruct (negb (existsSync fs _)); [destruct (mkdirSync fs _) as [fs' [[] | e]] |];
      rewrite Hgiven; reflexivity.
  - intros Hgiven. split.
    + intros fs' e Hdir Hmk. unfold AzureClient.newClientManager.
      rewrite Hdir, Hmk, Hgiven. split; reflexivity.
    + intros Hdir. destruct given as [name |]; [| now apply Hload].
      destruct name; [| discriminate Hgiven].
      rewrite <- (Hload fs Hdir). unfold AzureClient.newClientManager.
      rewrite Hdir. reflexivity.
  - intros this name. split; [reflexivity |]. split.
    + intros Hnone. unfold AzureClient.setOrgName, AzureClient.saveOrgNameToFile.
      cbn [fst AzureClient.configFile]. now rewrite Hnone.
    + intros Hfile.
      assert (Hfs : fst (setOrgName this name fs)
                    = fst (writeFileSync fs
                             (path_join (path_join homedir ".azure-devops-mcp") "config.json")
                             (stringifyConfig name))).
      { unfold AzureClient.setOrgName, AzureClient.saveOrgNameToFile.
        cbn [fst AzureClient.configFile]. now rewrite Hfile. }
      split; [exact Hfs |].
      intros Hdir Hexists Hread Hparse. rewrite (Hload _ Hdir), Hexists, Hread, Hparse.
      reflexivity.
Qed.
End ClientManagerProperties.

Lemma getClient_needs_an_organization_witness :
  get_azure_devops_repositories codeUnitCompare (stringify_repositories := opaque_json)
    (AzureClient.getClient (Return "token") (fun _ _ => {| getGitApi := Return sample_gitApi |})
       {| AzureClient.orgName := None; AzureClient.configDir := "/home/.azure-devops-mcp";
          AzureClient.configFile := None |})
    "proj" 100 0 None
  = Return {| content := [AzureClient.organization_missing]; isError := Some true |}.
Proof.
  destruct (getClient_needs_an_organization (Return "token")
              (fun _ _ => {| getGitApi := Return sample_gitApi |}) codeUnitCompare
              (stringify_repositories := opaque_json) (stringify_pull_request := opaque_json)
              (stringify_threads := opaque_json)
              {| AzureClient.orgName := None;
                 AzureClient.configDir := "/home/.azure-devops-mcp";
                 AzureClient.configFile := None |} "token") as (_ & Hwith).
  destruct (Hwith eq_refl) as (_ & Hmissing).
  destruct (Hmissing eq_refl) as (_ & Hrepos & _).
  apply Hrepos.
Defined.

Lemma org_name_reload_witness :
  AzureClient.orgName
    (snd (AzureClient.newClientManager (gmap string string) memory_existsSync
            memory_mkdirSync memory_readFileSync bare_parseConfig "/home" slash_join None
            (fst (AzureClient.setOrgName (gmap string string) memory_writeFileSync
                    (fun name => name)
                    {| AzureClient.orgName := None;
                       AzureClient.configDir := "/home/.azure-devops-mcp";
                       AzureClient.configFile :=
                         Some "/home/.azure-devops-mcp/config.json" |}
                    "contoso" ∅))))
  = Some "contoso".
Proof.
  destruct (org_name_reload (gmap string string) memory_existsSync memory_mkdirSync
              memory_readFileSync memory_writeFileSync bare_parseConfig (fun name => name)
              "/home" slash_join ∅ None) as (_ & _ & Hset).
  destruct (Hset {| AzureClient.orgName := None;
                    AzureClient.configDir := "/home/.azure-devops-mcp";
                    AzureClient.configFile := Some "/home/.azure-devops-mcp/config.json" |}
              "contoso") as (_ & _ & Hsaved).
  destruct (Hsaved eq_refl) as (_ & Hreload).
  apply Hreload; vm_compute; reflexivity.
Defined.

(** ** The order of the repository listing *)

Section SortOn.
Context {A : Type} (cmp : A -> A -> Z) (P : A -> Prop).
Hypothesis cmp_antisym_on :
  forall a b, P a -> P b -> (0 < cmp a b)%Z -> (cmp b a <= 0)%Z.
Hypothesis cmp_trans_on :
  forall a b c, P a -> P b -> P c ->
                in_order cmp a b -> in_order cmp b c -> in_order cmp a c.

Lemma insert_sorted_sorted_on (x : A) (l : list A) :
  P x -> Forall P l -> StronglySorted (in_order cmp) l ->
  StronglySorted (in_order cmp) (Js.insert_sorted cmp x l).
Proof.
  intros Hx HP Hs. induction Hs as [|y l Hs IH Hy]; simpl.
  - apply SSorted_cons; [apply SSorted_nil | apply Forall_nil; exact I].
  - apply Forall_cons in HP as [HPy HPl].
    destruct (Z.ltb_spec 0 (cmp y x)) as [Hlt | Hle].
    + assert (Hxy : in_order cmp x y) by (now apply cmp_antisym_on).
      apply SSorted_cons; [apply SSorted_cons; assumption |].
      apply Forall_cons. split; [exact Hxy |].
      rewrite Forall_forall in Hy, HPl |- *. intros z Hz.
      apply (cmp_trans_on x y z); auto.
    + apply SSorted_cons; [now apply IH |].
      rewrite insert_sorted_perm. apply Forall_cons. split; assumption.
Qed.

(** The sort puts in order a list on whose elements the comparator is
    consistent. *)
Lemma sort_sorted_on (l : list A) :
  Forall P l -> StronglySorted (in_order cmp) (Js.sort cmp l).
Proof.
  unfold Js.sort. intros HP.
  assert (Hgen : forall acc, Forall P acc -> StronglySorted (in_order cmp) acc ->
            StronglySorted (in_order cmp)
              (foldl (fun acc x => Js.insert_sorted cmp x acc) acc l)).
  { induction HP as [|x l Hx HP IH]; intros acc Hacc Hs; simpl; [exact Hs |].
    apply IH.
    - rewrite insert_sorted_perm. apply Forall_cons. split; assumption.
    - now apply insert_sorted_sorted_on. }
  apply Hgen; [apply Forall_nil; exact I | apply SSorted_nil].
Qed.
End SortOn.

Lemma StronglySorted_weaken_on {A} (P : A -> Prop) (R S : A -> A -> Prop) (l : list A) :
  (forall a b, P a -> R a b -> S a b) ->
  Forall P l -> StronglySorted R l -> StronglySorted S l.
Proof.
  intros HRS HP Hs. induction Hs as [|x l Hl IH Hx]; constructor.
  - apply IH. now apply Forall_cons in HP as [_ HP].
  - apply Forall_cons in HP as [HPx _].
    eapply Forall_impl; [exact Hx |]. intros y. now apply HRS.
Qed.

Section RepositoryListing.
Variable localeCompare : string -> string -> Z.
Context {stringify_repositories : Stringify (list RepositoryResult)}.
Variable connectionProvider : Completion WebApi.
Variables (connection : WebApi) (gitApi : GitApi).
Hypothesis connected : connectionProvider = Return connection.
Hypothesis has_git : getGitApi connection = Return gitApi.
Hypothesis localeCompare_antisym :
  forall a b, (0 < localeCompare a b)%Z -> (localeCompare b a <= 0)%Z.
Hypothesis localeCompare_trans :
  forall a b c, (localeCompare a b <= 0)%Z -> (localeCompare b c <= 0)%Z ->
                (localeCompare a c <= 0)%Z.

(** X20. The repository listing is paged in ascending order of the names.
    When the upstream repositories that pass the filter are not none and all
    have a name, and [skip] and [top] are not negative, the result is the
    serialisation of [top] projections from offset [skip] of a rearrangement
    of the projected repositories in which each name collates no later than
    the names after it. *)
Theorem repository_listing_order (project : string) (top skip : Z)
    (repositoryNameOrId : option string) (repositories : option (list GitRepository))
    (kept : list GitRepository) :
  getRepositories gitApi project = Return repositories ->
  filterRepositories repositoryNameOrId repositories = Some kept ->
  kept <> [] ->
  Forall (fun repo => repo_name repo <> None) kept ->
  (0 <= skip)%Z -> (0 <= top)%Z ->
  exists sorted,
    sorted ≡ₚ map toRepositoryResult kept
    /\ StronglySorted
         (fun a b => (localeCompare (default "" (rres_name a)) (default "" (rres_name b))
                      <= 0)%Z)
         sorted
    /\ get_azure_devops_repositories localeCompare connectionProvider project top skip
         repositoryNameOrId
       = Return {| content :=
                     [JSON_stringify (take (Z.to_nat top) (drop (Z.to_nat skip) sorted))];
                   isError := None |}.
Proof.
  intros Hrepos Hkept Hne Hnames Hskip Htop.
  set (named := fun r : RepositoryResult => rres_name r <> None).
  assert (Hnamed : Forall named (map toRepositoryResult kept)).
  { apply Forall_map. eapply Forall_impl; [exact Hnames |]. intros repo Hn. exact Hn. }
  exists (Js.sort (compareRepositoryNames localeCompare) (map toRepositoryResult kept)).
  split; [apply sort_perm |]. split.
  - apply (StronglySorted_weaken_on named (in_order (compareRepositoryNames localeCompare))).
    + intros a b Ha. unfold named in Ha. unfold in_order, compareRepositoryNames.
      destruct (rres_name a) as [name |]; [cbn; tauto | contradiction].
    + now rewrite sort_perm.
    + apply (sort_sorted_on _ named); [| | exact Hnamed].
      * intros a b Ha Hb. unfold named in Ha, Hb. unfold compareRepositoryNames.
        destruct (rres_name a) as [an |]; [| contradiction].
        destruct (rres_name b) as [bn |]; [| contradiction].
        apply localeCompare_antisym.
      * intros a b c Ha Hb Hc. unfold named in Ha, Hb, Hc.
        unfold in_order, compareRepositoryNames.
        destruct (rres_name a) as [an |]; [| contradiction].
        destruct (rres_name b) as [bn |]; [| contradiction].
        destruct (rres_name c) as [cn |]; [| contradiction].
        apply localeCompare_trans.
  - unfold get_azure_devops_repositories.
    rewrite (getRepositoriesResult_cases connectionProvider connection gitApi connected
               has_git project repositoryNameOrId repositories Hrepos), Hkept.
    destruct kept as [|r rs]; [contradiction |].
    cbn [mbind Completion_bind try_catch mret Completion_ret].
    now rewrite slice_take_drop.
Qed.
End RepositoryListing.

Lemma codeUnitCompare_antisym (a b : string) :
  (0 < codeUnitCompare a b)%Z -> (codeUnitCompare b a <= 0)%Z.
Proof. intros Hab. rewrite codeUnitCompare_flip. lia. Qed.

Lemma repository_listing_order_witness :
  get_azure_devops_repositories codeUnitCompare (stringify_repositories := opaque_json)
    sample_connection "proj" 100 0 (Some "alp")
  = Return {| content := ["<json>"]; isError := None |}.
Proof.
  destruct (repository_listing_order codeUnitCompare (stringify_repositories := opaque_json)
              sample_connection {| getGitApi := Return sample_gitApi |} sample_gitApi
              eq_refl eq_refl
              codeUnitCompare_antisym codeUnitCompare_trans "proj" 100 0 (Some "alp") (Some [sample_repository])
              [sample_repository] eq_refl eq_refl)
    as (sorted & _ & _ & Hpage); try lia.
  - discriminate.
  - apply Forall_cons. split; [discriminate | apply Forall_nil; exact I].
  - rewrite Hpage. reflexivity.
Defined.
